(** * Interview-Labs: the transcript-scoring heuristic

    A shallow embedding of the three copies of the transcript analysis
    found in the repository,

      - [analyzeRealSpeech]        src/api/analyze.js, lines 233-370,
      - [analyzeRealTranscription] src/server.js,      lines 132-270,
      - [analyzeTranscription]     src/server.js,      lines 954-1044,

    with the helpers [findFillerTimestamp] and [findTimestampForIssue],
    followed by the properties stated about them.

    Conventions of the embedding.

      - A JavaScript string is a [string]: its characters are the code
        units 0..255.
      - Integer counts ([length] of an array) are in [Z].
      - The rating, the segment start times and the quotients compared
        with counts ([wordCount / 20] and the like) are exact rationals
        in [Q].  The rating only takes multiples of 0.5 up to 12.5,
        which doubles hold exactly.  A count is bounded by the length
        of the text (below 2^31), so the real quotient of a count by
        15, 20 or 25 differs from any count it is compared with by 0 or
        by at least 1/25, far more than binary64 rounding moves it, and
        the comparison has the same outcome on doubles.  A start time
        is taken as the rational its double denotes; [%] is exact on
        doubles.
      - The filler percentage [Math.round((fillerWords / wordCount) * 100)]
        is sensitive to binary64 rounding (29/200*100 is below 14.5 in
        doubles); it is computed with the kernel's binary64 floats.
      - A thrown exception is a [Throw] completion; [console.log] calls
        are omitted. *)

From Stdlib Require Import ZArith QArith Qround Qminmax Lia List Bool.
From Stdlib Require Import String Ascii DecimalString.
From Stdlib Require Import Floats Uint63.
Import ListNotations.

Open Scope string_scope.

(** ** JavaScript strings *)

Module JsString.

Definition code (c : ascii) : nat := nat_of_ascii c.

Definition inRange (lo hi : nat) (c : ascii) : bool :=
  Nat.leb lo (code c) && Nat.leb (code c) hi.

(** [String.prototype.toLowerCase] on code units 0..255: A-Z and the
    Latin-1 capitals U+00C0..U+00DE (U+00D7, the multiplication sign,
    excepted) move up by 32. *)
Definition lowerChar (c : ascii) : ascii :=
  if inRange 65 90 c then ascii_of_nat (code c + 32)
  else if inRange 192 222 c && negb (Nat.eqb (code c) 215)
       then ascii_of_nat (code c + 32)
  else c.

Fixpoint toLowerCase (s : string) : string :=
  match s with
  | EmptyString => EmptyString
  | String c rest => String (lowerChar c) (toLowerCase rest)
  end.

(** [s.includes(sub)] *)
Fixpoint includes (s sub : string) : bool :=
  String.prefix sub s ||
  match s with
  | EmptyString => false
  | String _ rest => includes rest sub
  end.

(** [s.split(sep)] for a separator of one character.  The result is
    never empty: the empty string splits into one empty token. *)
Fixpoint split (sep : ascii) (s : string) : list string :=
  match s with
  | EmptyString => [EmptyString]
  | String c rest =>
      if Ascii.eqb c sep then EmptyString :: split sep rest
      else match split sep rest with
           | [] => [String c EmptyString]
           | w :: ws => String c w :: ws
           end
  end.

Fixpoint repeat (c : ascii) (n : nat) : string :=
  match n with
  | O => EmptyString
  | S n' => String c (repeat c n')
  end.

(** [s.padStart(n, c)] for a filler of one character *)
Definition padStart (n : nat) (c : ascii) (s : string) : string :=
  repeat c (n - String.length s) ++ s.

(** [Number.prototype.toString] on an integer *)
Definition ofZ (z : Z) : string := NilEmpty.string_of_int (Z.to_int z).

(** [arr.slice(0, n)] *)
Definition slice0 {A : Type} (n : nat) (l : list A) : list A := firstn n l.

(** [text || ''] *)
Definition orEmpty (s : string) : string :=
  match s with
  | EmptyString => ""
  | _ => s
  end.

End JsString.

(** ** Regular expressions

    The fragment of ECMAScript regular expressions the source uses:
    literals, alternation, sequence, the assertion [\b], and the greedy
    quantifiers [+] and [*] applied to a character class.  All the
    patterns carry the flags [g] and [i].  The matcher is the
    backtracking matcher of the language definition, in continuation
    style: a continuation receives the character before the current
    position, the rest of the input and the number of characters
    consumed, and answers with the length of the whole match. *)

Module Regex.

Inductive regex : Type :=
| Lit (s : string)
| WordB
| Plus (cls : ascii -> bool)
| Star (cls : ascii -> bool)
| Seq (r1 r2 : regex)
| Alt (r1 r2 : regex)
| Fail.

Definition Cont : Type := option ascii -> string -> nat -> option nat.

(** [Canonicalize] under [i] without [u]: a character is compared
    through its upper case, and a character outside ASCII is never
    identified with an ASCII one; every pattern character of the
    source is ASCII. *)
Definition canonicalize (c : ascii) : ascii :=
  if JsString.inRange 97 122 c then ascii_of_nat (JsString.code c - 32)
  else c.

Definition sameChar (a b : ascii) : bool :=
  Ascii.eqb (canonicalize a) (canonicalize b).

(** [\d] and [\s] (on code units 0..255) *)
Definition digit (c : ascii) : bool := JsString.inRange 48 57 c.

Definition space (c : ascii) : bool :=
  JsString.inRange 9 13 c || Nat.eqb (JsString.code c) 32
  || Nat.eqb (JsString.code c) 160.

(** [IsWordChar]: letters, digits and the underscore *)
Definition wordChar (c : ascii) : bool :=
  JsString.inRange 97 122 c || JsString.inRange 65 90 c
  || JsString.inRange 48 57 c || Nat.eqb (JsString.code c) 95.

Definition isWord (o : option ascii) : bool :=
  match o with
  | Some c => wordChar c
  | None => false
  end.

Definition next (s : string) : option ascii :=
  match s with
  | EmptyString => None
  | String c _ => Some c
  end.

Fixpoint matchLit (lit : string) (prev : option ascii) (s : string)
         (n : nat) (k : Cont) : option nat :=
  match lit with
  | EmptyString => k prev s n
  | String p lit' =>
      match s with
      | EmptyString => None
      | String c rest =>
          if sameChar p c then matchLit lit' (Some c) rest (S n) k
          else None
      end
  end.

(** Greedy [cls*]: the longest run first, then shorter ones. *)
Fixpoint matchStar (cls : ascii -> bool) (prev : option ascii)
         (s : string) (n : nat) (k : Cont) : option nat :=
  match s with
  | EmptyString => k prev s n
  | String c rest =>
      if cls c then
        match matchStar cls (Some c) rest (S n) k with
        | Some e => Some e
        | None => k prev s n
        end
      else k prev s n
  end.

Definition matchPlus (cls : ascii -> bool) (prev : option ascii)
           (s : string) (n : nat) (k : Cont) : option nat :=
  match s with
  | EmptyString => None
  | String c rest =>
      if cls c then matchStar cls (Some c) rest (S n) k else None
  end.

Fixpoint run (r : regex) (prev : option ascii) (s : string) (n : nat)
         (k : Cont) : option nat :=
  match r with
  | Lit lit => matchLit lit prev s n k
  | WordB =>
      if xorb (isWord prev) (isWord (next s)) then k prev s n else None
  | Plus cls => matchPlus cls prev s n k
  | Star cls => matchStar cls prev s n k
  | Seq r1 r2 => run r1 prev s n (fun p' s' n' => run r2 p' s' n' k)
  | Alt r1 r2 =>
      match run r1 prev s n k with
      | Some e => Some e
      | None => run r2 prev s n k
      end
  | Fail => None
  end.

(** The length of the match that starts at the current position. *)
Definition matchHere (r : regex) (prev : option ascii) (s : string)
  : option nat :=
  run r prev s 0%nat (fun _ _ n => Some n).

(** The scan of [text.match(re)] under [g]: try each start position
    from left to right; after a match resume at its end (one further
    after an empty match).  [skip] counts the characters of the last
    match still to step over. *)
Fixpoint scan (r : regex) (prev : option ascii) (s : string)
         (skip : nat) : nat :=
  match skip with
  | S skip' =>
      match s with
      | EmptyString => 0
      | String c rest => scan r (Some c) rest skip'
      end
  | O =>
      match matchHere r prev s with
      | Some len =>
          S (match s with
             | EmptyString => 0
             | String c rest => scan r (Some c) rest (Nat.pred len)
             end)
      | None =>
          match s with
          | EmptyString => 0
          | String c rest => scan r (Some c) rest 0
          end
      end
  end.

(** [(text.match(re) || []).length] *)
Definition countMatches (r : regex) (text : string) : Z :=
  Z.of_nat (scan r None text 0).

(** [(w1|w2|...)] *)
Definition oneOf (ws : list string) : regex :=
  fold_right (fun w r => Alt (Lit w) r) Fail ws.

(** [\b(w1|w2|...)\b] *)
Definition wholeWord (ws : list string) : regex :=
  Seq WordB (Seq (oneOf ws) WordB).

End Regex.

(** ** JavaScript numbers *)

Module JsNumber.

(** [a < b] and [a > b] on exact values *)
Definition ltQ (a b : Q) : bool := negb (Qle_bool b a).
Definition gtQ (a b : Q) : bool := negb (Qle_bool a b).
Definition geQ (a b : Q) : bool := Qle_bool b a.

(** [Math.round]: the nearest integer, a tie going up. *)
Definition Math_round (x : Q) : Z := Qfloor (x + (1 # 2)).

Definition Math_floor (x : Q) : Z := Qfloor x.

(** [a % b]: the remainder has the sign of the dividend. *)
Definition trunc (x : Q) : Z :=
  if Qle_bool 0 x then Qfloor x else Qceiling x.

Definition rem (a b : Q) : Q := a - b * inject_Z (trunc (a / b)).

(** [Number.prototype.toString] on a non-negative multiple of 0.5,
    the only non-integers the analysis prints. *)
Definition toString (x : Q) : string :=
  let n := Qfloor x in
  if Qeq_bool (inject_Z n) x then JsString.ofZ n
  else JsString.ofZ n ++ ".5".

(** A count as a binary64 value (exact below 2^53). *)
Definition ofCount (z : Z) : float := PrimFloat.of_uint63 (Uint63.of_Z z).

(** [`${Math.round(x)}`] on a binary64 value: the exact value of a
    finite double is [m * 2^e]. *)
Definition roundToString (x : float) : string :=
  match Prim2SF x with
  | S754_zero _ => "0"
  | S754_finite s m e =>
      let v := inject_Z (if s then Z.neg m else Z.pos m) * Qpower 2 e in
      JsString.ofZ (Math_round v)
  | S754_infinity s => if s then "-Infinity" else "Infinity"
  | S754_nan => "NaN"
  end.

(** [`${Math.round((a / b) * 100)}`] on two counts *)
Definition percent (a b : Z) : string :=
  roundToString
    (PrimFloat.mul (PrimFloat.div (ofCount a) (ofCount b)) (ofCount 100)).

End JsNumber.

(** ** Data model *)

(** A thrown exception ends the call. *)
Inductive Error : Type :=
| TypeError.

Inductive Completion (A : Type) : Type :=
| Normal (a : A)
| Throw (e : Error).

Arguments Normal {A} a.
Arguments Throw {A} e.

Definition bind {A B : Type} (c : Completion A) (k : A -> Completion B)
  : Completion B :=
  match c with
  | Normal a => k a
  | Throw e => Throw e
  end.

Notation "x <- c ;; k" := (bind c (fun x => k))
  (at level 61, c at next level, right associativity).

(** A timed span of the transcript: [{start, end, text}], times in
    seconds. *)
Module Segment.
Record t : Type := mk { start : Q; end_ : Q; text : string }.
End Segment.

(** [{text, segments, duration}]; [segments] may be absent. *)
Module Transcript.
Record t : Type :=
  mk { text : string; segments : option (list Segment.t); duration : Q }.
End Transcript.

(** [{timestamp, text}] *)
Module Mistake.
Record t : Type := mk { timestamp : string; text : string }.
End Mistake.

(** [{rating, mistakes, tips, summary}] *)
Record AnalysisResult : Type := mkResult {
  rating : Q;
  mistakes : list Mistake.t;
  tips : list string;
  summary : string
}.

(** [if (c) rating += d;] *)
Definition plusIf (c : bool) (d : Q) (rating : Q) : Q :=
  if c then rating + d else rating.

(** [arr.push(x)] *)
Definition push {A : Type} (arr : list A) (x : A) : list A := arr ++ [x].

(** [`${minutes}:${seconds.toString().padStart(2, '0')}`] with
    [minutes = Math.floor(start / 60)] and
    [seconds = Math.floor(start % 60)]. *)
Definition formatStart (start : Q) : string :=
  let minutes := JsNumber.Math_floor (start / 60) in
  let seconds := JsNumber.Math_floor (JsNumber.rem start 60) in
  JsString.ofZ minutes ++ ":" ++ JsString.padStart 2 "0" (JsString.ofZ seconds).

(** The five patterns of [analyzeRealSpeech] (analyze.js, 275-283),
    repeated letter for letter in [analyzeRealTranscription]
    (server.js, 174-182). *)
Module Patterns.
Import Regex.

Definition technicalTerms : regex :=
  wholeWord
    ["javascript"; "react"; "node"; "python"; "java"; "database"; "api";
     "system"; "software"; "code"; "programming"; "development";
     "framework"; "library"; "algorithm"; "data"; "server"; "frontend";
     "backend"; "fullstack"; "git"; "docker"; "aws"; "cloud";
     "microservices"; "testing"; "debugging"; "deployment"; "scalability";
     "performance"; "security"; "architecture"; "html"; "css";
     "typescript"; "angular"; "vue"; "spring"; "hibernate"; "mysql";
     "postgresql"; "mongodb"; "redis"; "kubernetes"; "devops"; "ci"; "cd";
     "agile"; "scrum"].

Definition confidenceWords : regex :=
  wholeWord
    ["successfully"; "achieved"; "led"; "implemented"; "improved";
     "optimized"; "designed"; "developed"; "managed"; "created"; "built";
     "delivered"; "solved"; "experience"; "expertise"; "proficient";
     "skilled"; "accomplished"; "responsible"; "contributed";
     "collaborated"; "completed"; "established"; "enhanced"; "streamlined";
     "automated"; "integrated"; "architected"].

Definition fillerWords : regex :=
  wholeWord
    ["um"; "uh"; "like"; "you know"; "actually"; "basically"; "sort of";
     "kind of"; "well"; "so"; "right"; "okay"; "yeah"; "hmm"; "er"; "ah"].

(** [\b(\d+%|\d+\s*(percent|...))\b] *)
Definition specificMetrics : regex :=
  Seq WordB
    (Seq
       (Alt (Seq (Plus digit) (Lit "%"))
            (Seq (Plus digit)
                 (Seq (Star space)
                      (oneOf
                         ["percent"; "times"; "years"; "months"; "weeks";
                          "days"; "users"; "customers"; "projects"; "team";
                          "members"; "million"; "thousand"; "hours";
                          "dollars"; "revenue"; "growth"; "reduction";
                          "increase"; "decrease"; "improvement"]))))
       WordB).

Definition questionWords : regex :=
  wholeWord
    ["what"; "how"; "why"; "when"; "where"; "which"; "who"; "could you";
     "can you"; "would you"; "do you"; "have you"; "will you"].

(** The three shorter patterns of [analyzeTranscription]
    (server.js, 995-999). *)
Definition technicalTermsShort : regex :=
  wholeWord
    ["javascript"; "react"; "node"; "python"; "java"; "database"; "api";
     "system"; "software"; "code"; "programming"; "development";
     "framework"; "library"; "algorithm"; "data"; "server"; "frontend";
     "backend"; "fullstack"; "git"; "docker"; "aws"; "cloud"; "testing";
     "debugging"; "deployment"].

Definition confidenceWordsShort : regex :=
  wholeWord
    ["successfully"; "achieved"; "implemented"; "developed"; "managed";
     "created"; "built"; "delivered"; "solved"; "experience"; "skilled";
     "accomplished"; "responsible"; "led"; "improved"; "designed"].

Definition fillerWordsShort : regex :=
  wholeWord
    ["um"; "uh"; "like"; "you know"; "actually"; "basically"; "sort of";
     "kind of"; "well"; "so"; "right"; "okay"].

End Patterns.

(** ** src/api/analyze.js *)

Module AnalyzeJs.
Import JsString JsNumber.

(** [findFillerTimestamp(segments, fillerCount)], lines 508-517.
    [segments[midPoint]] is [undefined] past the end of the array, and
    reading [.start] of [undefined] throws. *)
Definition findFillerTimestamp (segments : option (list Segment.t))
           (fillerCount : Z) : Completion string :=
  match segments with
  | None => Normal "1:15"
  | Some segments =>
      if (Z.of_nat (List.length segments) =? 0)%Z then Normal "1:15"
      else
        let midPoint :=
          Math_floor (inject_Z (Z.of_nat (List.length segments)) / 2) in
        match nth_error segments (Z.to_nat midPoint) with
        | None => Throw TypeError
        | Some segment => Normal (formatStart (Segment.start segment))
        end
  end.

(** The rating of [analyzeRealSpeech], lines 294-314, as a function of
    the counts it reads. *)
Definition computeRating
           (wordCount technicalTerms confidenceWords fillerWords
                      specificMetrics questionWords : Z)
           (field text : string) : Q :=
  let rating := 4 in
  let rating := plusIf (wordCount >? 50)%Z 1 rating in
  let rating := plusIf (wordCount >? 100)%Z (1 # 2) rating in
  let rating := plusIf (technicalTerms >? 2)%Z 1 rating in
  let rating := plusIf (technicalTerms >? 5)%Z (1 # 2) rating in
  let rating := plusIf (confidenceWords >? 2)%Z 1 rating in
  let rating := plusIf (confidenceWords >? 4)%Z (1 # 2) rating in
  let rating := plusIf (specificMetrics >? 0)%Z 1 rating in
  let rating := plusIf (specificMetrics >? 2)%Z (1 # 2) rating in
  let rating :=
    plusIf (ltQ (inject_Z fillerWords) (inject_Z wordCount / 20))
           (1 # 2) rating in
  let rating := plusIf (questionWords >? 0)%Z (1 # 2) rating in
  let fieldLower := toLowerCase field in
  let rating :=
    plusIf (includes fieldLower "senior" && (technicalTerms >? 4)%Z)
           (1 # 2) rating in
  let rating :=
    plusIf (includes fieldLower "intern" && (confidenceWords >? 1)%Z)
           (1 # 2) rating in
  let rating :=
    plusIf (includes fieldLower "java"
            && includes (toLowerCase text) "java")
           (1 # 2) rating in
  Qmin 9 (Qmax 1 (inject_Z (Math_round (rating * 2)) / 2)).

(** The result of the branch [wordCount < 5], lines 241-254. *)
Definition noSpeech : AnalysisResult :=
  {| rating := 0;
     mistakes :=
       [Mistake.mk "0:05"
          "No meaningful speech detected - please speak clearly into the microphone"];
     tips :=
       ["Ensure you are actually speaking during the recording";
        "Check microphone permissions and audio levels";
        "Speak clearly and at normal volume";
        "Record in a quiet environment"];
     summary :=
       "No speech content detected for analysis. Please record again with clear audio." |}.

(** The result of the branch [wordCount < 20], lines 258-271. *)
Definition tooBrief (wordCount : Z) : AnalysisResult :=
  {| rating := 2;
     mistakes :=
       [Mistake.mk "0:10"
          "Response too brief - provide more detailed answers with specific examples"];
     tips :=
       ["Elaborate on your experience with concrete examples";
        "Use the STAR method (Situation, Task, Action, Result)";
        "Aim for 1-2 minutes per response";
        "Include specific technologies and metrics"];
     summary :=
       "Brief response detected (" ++ ofZ wordCount
       ++ " words). Expand your answers for better evaluation." |}.

(** [analyzeRealSpeech(transcription, field)], lines 233-370 *)
Definition analyzeRealSpeech (transcription : Transcript.t)
           (field : string) : Completion AnalysisResult :=
  let text := Transcript.text transcription in
  let wordCount := Z.of_nat (List.length (split " " text)) in
  if (wordCount <? 5)%Z then Normal noSpeech
  else if (wordCount <? 20)%Z then Normal (tooBrief wordCount)
  else
    let technicalTerms := Regex.countMatches Patterns.technicalTerms text in
    let confidenceWords :=
      Regex.countMatches Patterns.confidenceWords text in
    let fillerWords := Regex.countMatches Patterns.fillerWords text in
    let specificMetrics :=
      Regex.countMatches Patterns.specificMetrics text in
    let questionWords := Regex.countMatches Patterns.questionWords text in
    let rating :=
      computeRating wordCount technicalTerms confidenceWords fillerWords
                    specificMetrics questionWords field text in
    let mistakes := [] in
    mistakes <-
      (if gtQ (inject_Z fillerWords) (inject_Z wordCount / 15) then
         let fillerPercent := percent fillerWords wordCount in
         timestamp <-
           findFillerTimestamp (Transcript.segments transcription)
                               fillerWords ;;
         Normal
           (push mistakes
              (Mistake.mk timestamp
                 ("Reduce filler words (" ++ fillerPercent
                  ++ "% of speech) - practice speaking more deliberately")))
       else Normal mistakes) ;;
    let mistakes :=
      if (specificMetrics =? 0)%Z && (wordCount >? 30)%Z then
        push mistakes
          (Mistake.mk "1:30"
             "Include specific metrics and quantifiable achievements in your examples")
      else mistakes in
    let mistakes :=
      if (technicalTerms <? 2)%Z && (wordCount >? 30)%Z then
        push mistakes
          (Mistake.mk "2:00"
             ("Use more " ++ field
              ++ "-specific technical terminology to demonstrate expertise"))
      else mistakes in
    let mistakes :=
      if (confidenceWords <? 2)%Z && (wordCount >? 40)%Z then
        push mistakes
          (Mistake.mk "1:45"
             "Use more confident, achievement-oriented language when describing your experience")
      else mistakes in
    let mistakes :=
      if (wordCount <? 40)%Z then
        push mistakes
          (Mistake.mk "0:30"
             "Provide more comprehensive responses with detailed examples and context")
      else mistakes in
    let tips :=
      ["Real speech analysis: " ++ ofZ wordCount ++ " words, "
         ++ ofZ technicalTerms ++ " technical terms, "
         ++ ofZ confidenceWords ++ " confidence indicators";
       if (technicalTerms >? 3)%Z
       then "Excellent technical vocabulary usage"
       else "Include more " ++ field
            ++ "-specific technical concepts and terminology";
       if (confidenceWords >? 2)%Z
       then "Strong confident communication style detected"
       else "Practice using more achievement-focused language";
       if (specificMetrics >? 0)%Z
       then "Good use of quantifiable results"
       else "Always include specific numbers and measurable outcomes";
       if ltQ (inject_Z fillerWords) (inject_Z wordCount / 25)
       then "Clear, fluent speech patterns"
       else "Practice reducing filler words for more professional delivery"]
    in
    Normal
      {| rating := rating;
         mistakes := slice0 3 mistakes;
         tips := slice0 5 tips;
         summary :=
           "Real speech transcription analysis: " ++ ofZ wordCount
           ++ " words analyzed. Technical terms: " ++ ofZ technicalTerms
           ++ ", Confidence indicators: " ++ ofZ confidenceWords
           ++ ", Filler words: " ++ ofZ fillerWords
           ++ ". Rating: " ++ toString rating ++ "/10. "
           ++ (if geQ rating 7
               then "Strong interview performance with clear technical communication."
               else if geQ rating 5
               then "Good foundation with specific areas for improvement based on actual speech content."
               else "Focus on the identified areas to significantly enhance interview performance.") |}.

End AnalyzeJs.

(** ** src/server.js *)

Module ServerJs.
Import JsString JsNumber.

(** [findTimestampForIssue(segments, issueCount)], lines 272-286.  A
    [Segment.t] always has its [start], so the test
    [segment && segment.start !== undefined] is the test that an
    element was found. *)
Definition findTimestampForIssue (segments : option (list Segment.t))
           (issueCount : Z) : string :=
  match segments with
  | None => "1:15"
  | Some segments =>
      if (Z.of_nat (List.length segments) =? 0)%Z then "1:15"
      else
        let midPoint :=
          Math_floor (inject_Z (Z.of_nat (List.length segments)) / 2) in
        let segment :=
          match nth_error segments (Z.to_nat midPoint) with
          | Some s => Some s
          | None => nth_error segments 0
          end in
        match segment with
        | Some segment => formatStart (Segment.start segment)
        | None => "1:15"
        end
  end.

(** The rating of [analyzeRealTranscription], lines 193-213. *)
Definition computeRating
           (wordCount technicalTerms confidenceWords fillerWords
                      specificMetrics questionWords : Z)
           (field text : string) : Q :=
  let rating := 4 in
  let rating := plusIf (wordCount >? 50)%Z 1 rating in
  let rating := plusIf (wordCount >? 100)%Z (1 # 2) rating in
  let rating := plusIf (technicalTerms >? 2)%Z 1 rating in
  let rating := plusIf (technicalTerms >? 5)%Z (1 # 2) rating in
  let rating := plusIf (confidenceWords >? 2)%Z 1 rating in
  let rating := plusIf (confidenceWords >? 4)%Z (1 # 2) rating in
  let rating := plusIf (specificMetrics >? 0)%Z 1 rating in
  let rating := plusIf (specificMetrics >? 2)%Z (1 # 2) rating in
  let rating :=
    plusIf (ltQ (inject_Z fillerWords) (inject_Z wordCount / 20))
           (1 # 2) rating in
  let rating := plusIf (questionWords >? 0)%Z (1 # 2) rating in
  let fieldLower := toLowerCase field in
  let rating :=
    plusIf (includes fieldLower "senior" && (technicalTerms >? 4)%Z)
           (1 # 2) rating in
  let rating :=
    plusIf (includes fieldLower "intern" && (confidenceWords >? 1)%Z)
           (1 # 2) rating in
  let rating :=
    plusIf (includes fieldLower "java"
            && includes (toLowerCase text) "java")
           (1 # 2) rating in
  Qmin 9 (Qmax 1 (inject_Z (Math_round (rating * 2)) / 2)).

(** The result of the branch [wordCount < 5], lines 140-153. *)
Definition noSpeech : AnalysisResult :=
  {| rating := 0;
     mistakes :=
       [Mistake.mk "0:05"
          "No meaningful speech detected - ensure microphone is working and speak clearly"];
     tips :=
       ["Check microphone permissions in your browser";
        "Speak directly into the microphone during recording";
        "Record in a quiet environment without background noise";
        "Ensure you are actually speaking during the recording"];
     summary :=
       "No speech content detected for analysis. Please record again with clear audio." |}.

(** The result of the branch [wordCount < 20], lines 157-170. *)
Definition tooBrief (wordCount : Z) : AnalysisResult :=
  {| rating := 2;
     mistakes :=
       [Mistake.mk "0:10"
          "Response too brief - provide more detailed answers with specific examples"];
     tips :=
       ["Elaborate on your experience with concrete examples";
        "Use the STAR method (Situation, Task, Action, Result)";
        "Aim for 1-2 minutes per response";
        "Include specific technologies and metrics in your answers"];
     summary :=
       "Very brief response detected (" ++ ofZ wordCount
       ++ " words). Expand your answers for better evaluation." |}.

(** [analyzeRealTranscription(transcription, field)], lines 132-270 *)
Definition analyzeRealTranscription (transcription : Transcript.t)
           (field : string) : Completion AnalysisResult :=
  let text := orEmpty (Transcript.text transcription) in
  let wordCount := Z.of_nat (List.length (split " " text)) in
  if (wordCount <? 5)%Z then Normal noSpeech
  else if (wordCount <? 20)%Z then Normal (tooBrief wordCount)
  else
    let technicalTerms := Regex.countMatches Patterns.technicalTerms text in
    let confidenceWords :=
      Regex.countMatches Patterns.confidenceWords text in
    let fillerWords := Regex.countMatches Patterns.fillerWords text in
    let specificMetrics :=
      Regex.countMatches Patterns.specificMetrics text in
    let questionWords := Regex.countMatches Patterns.questionWords text in
    let rating :=
      computeRating wordCount technicalTerms confidenceWords fillerWords
                    specificMetrics questionWords field text in
    let mistakes := [] in
    let mistakes :=
      if gtQ (inject_Z fillerWords) (inject_Z wordCount / 15) then
        let fillerPercent := percent fillerWords wordCount in
        push mistakes
          (Mistake.mk
             (findTimestampForIssue (Transcript.segments transcription)
                                    fillerWords)
             ("Reduce filler words (" ++ fillerPercent
              ++ "% of speech) - practice speaking more deliberately"))
      else mistakes in
    let mistakes :=
      if (specificMetrics =? 0)%Z && (wordCount >? 30)%Z then
        push mistakes
          (Mistake.mk "1:30"
             "Include specific metrics and quantifiable achievements in your examples")
      else mistakes in
    let mistakes :=
      if (technicalTerms <? 2)%Z && (wordCount >? 30)%Z then
        push mistakes
          (Mistake.mk "2:00"
             ("Use more " ++ field
              ++ "-specific technical terminology to demonstrate expertise"))
      else mistakes in
    let mistakes :=
      if (confidenceWords <? 2)%Z && (wordCount >? 40)%Z then
        push mistakes
          (Mistake.mk "1:45"
             "Use more confident, achievement-oriented language when describing your experience")
      else mistakes in
    let mistakes :=
      if (wordCount <? 40)%Z then
        push mistakes
          (Mistake.mk "0:30"
             "Provide more comprehensive responses with detailed examples and context")
      else mistakes in
    let tips :=
      ["Real speech analysis: " ++ ofZ wordCount
         ++ " words analyzed from your actual response";
       "Content includes " ++ ofZ technicalTerms ++ " technical terms and "
         ++ ofZ confidenceWords ++ " confidence indicators";
       if (technicalTerms >? 3)%Z
       then "Excellent technical vocabulary usage detected"
       else "Include more " ++ field
            ++ "-specific technical concepts and terminology";
       if (confidenceWords >? 2)%Z
       then "Strong confident communication style observed"
       else "Practice using more achievement-focused language";
       if (specificMetrics >? 0)%Z
       then "Good use of quantifiable results in your response"
       else "Always include specific numbers and measurable outcomes";
       if ltQ (inject_Z fillerWords) (inject_Z wordCount / 25)
       then "Clear, fluent speech patterns detected"
       else "Practice reducing filler words for more professional delivery"]
    in
    Normal
      {| rating := rating;
         mistakes := slice0 3 mistakes;
         tips := slice0 5 tips;
         summary :=
           "Real speech analysis of your " ++ ofZ wordCount
           ++ "-word response. Technical depth: " ++ ofZ technicalTerms
           ++ " terms, Confidence level: " ++ ofZ confidenceWords
           ++ " indicators, Speech clarity: " ++ ofZ fillerWords
           ++ " filler words. Overall rating: " ++ toString rating
           ++ "/10. "
           ++ (if geQ rating 7
               then "Strong interview performance with clear technical communication based on your actual speech content."
               else if geQ rating 5
               then "Good foundation with specific areas for improvement identified from your real response."
               else "Focus on the recommended areas to significantly enhance your interview performance.") |}.

(** The word count of [analyzeTranscription], line 956:
    [text.split(' ').filter(w => w.length > 0).length]. *)
Definition wordCountOf (text : string) : Z :=
  Z.of_nat
    (List.length
       (filter (fun w => Nat.ltb 0 (String.length w)) (split " " text))).

(** The rating of [analyzeTranscription], lines 1001-1010. *)
Definition computeRatingSimple
           (wordCount technicalTerms confidenceWords fillerWords : Z) : Q :=
  let rating := 5 in
  let rating := plusIf (wordCount >? 50)%Z 1 rating in
  let rating := plusIf (wordCount >? 100)%Z (1 # 2) rating in
  let rating := plusIf (technicalTerms >? 2)%Z 1 rating in
  let rating := plusIf (confidenceWords >? 2)%Z (1 # 2) rating in
  let rating :=
    plusIf (ltQ (inject_Z fillerWords) (inject_Z wordCount / 20))
           (1 # 2) rating in
  Qmin 9 (Qmax 1 (inject_Z (Math_round (rating * 2)) / 2)).

(** [analyzeTranscription(transcription, field)], lines 954-1044 *)
Definition analyzeTranscription (transcription : Transcript.t)
           (field : string) : AnalysisResult :=
  let text := orEmpty (Transcript.text transcription) in
  let wordCount := wordCountOf text in
  if (wordCount <? 5)%Z then
    {| rating := 0;
       mistakes :=
         [Mistake.mk "0:05"
            "No speech detected - ensure microphone is working and speak clearly"];
       tips :=
         ["Check microphone permissions in your browser";
          "Speak clearly into the microphone during recording";
          "Record in a quiet environment";
          "Ensure you are actually speaking during recording"];
       summary :=
         "No speech content detected. Please record again with clear audio." |}
  else if (wordCount <? 20)%Z then
    {| rating := 2;
       mistakes :=
         [Mistake.mk "0:10"
            "Response too brief - provide more detailed answers with examples"];
       tips :=
         ["Use the STAR method (Situation, Task, Action, Result)";
          "Provide specific examples from your experience";
          "Aim for 1-2 minutes per response";
          "Include technical details relevant to the role"];
       summary :=
         "Brief response (" ++ ofZ wordCount
         ++ " words). Expand your answers for better evaluation." |}
  else
    let technicalTerms :=
      Regex.countMatches Patterns.technicalTermsShort text in
    let confidenceWords :=
      Regex.countMatches Patterns.confidenceWordsShort text in
    let fillerWords :=
      Regex.countMatches Patterns.fillerWordsShort text in
    let rating :=
      computeRatingSimple wordCount technicalTerms confidenceWords
                          fillerWords in
    let mistakes := [] in
    let mistakes :=
      if gtQ (inject_Z fillerWords) (inject_Z wordCount / 15) then
        push mistakes
          (Mistake.mk "1:15"
             ("Reduce filler words (" ++ percent fillerWords wordCount
              ++ "%) - practice speaking more deliberately"))
      else mistakes in
    let mistakes :=
      if (technicalTerms <? 2)%Z then
        push mistakes
          (Mistake.mk "1:30"
             ("Include more " ++ field ++ "-specific technical terminology"))
      else mistakes in
    let mistakes :=
      if (wordCount <? 50)%Z then
        push mistakes
          (Mistake.mk "0:30"
             "Provide more comprehensive responses with detailed examples")
      else mistakes in
    {| rating := rating;
       mistakes := slice0 3 mistakes;
       tips :=
         ["Real analysis: " ++ ofZ wordCount ++ " words, "
            ++ ofZ technicalTerms ++ " technical terms, "
            ++ ofZ confidenceWords ++ " confidence words";
          if (technicalTerms >? 3)%Z
          then "Excellent technical vocabulary"
          else "Include more technical concepts";
          if (confidenceWords >? 2)%Z
          then "Strong confident language"
          else "Use more achievement-focused language";
          "Based on your actual spoken content, not generic feedback"];
       summary :=
         "Real speech analysis: " ++ ofZ wordCount
         ++ " words analyzed. Technical depth: " ++ ofZ technicalTerms
         ++ ", Confidence: " ++ ofZ confidenceWords ++ ". Rating: "
         ++ toString rating ++ "/10 based on actual speech content." |}.

End ServerJs.

(** ** The counts and the rating of a text *)

(** The word count of [analyzeRealSpeech] and
    [analyzeRealTranscription]: [text.split(' ').length]. *)
Definition wordCount (text : string) : Z :=
  Z.of_nat (List.length (JsString.split " " text)).

(** The five regular-expression counts over the text. *)
Definition technicalTermCount (text : string) : Z :=
  Regex.countMatches Patterns.technicalTerms text.

Definition confidenceWordCount (text : string) : Z :=
  Regex.countMatches Patterns.confidenceWords text.

Definition fillerWordCount (text : string) : Z :=
  Regex.countMatches Patterns.fillerWords text.

Definition specificMetricCount (text : string) : Z :=
  Regex.countMatches Patterns.specificMetrics text.

Definition questionWordCount (text : string) : Z :=
  Regex.countMatches Patterns.questionWords text.

(** The rating of the general branch of [analyzeRealSpeech]. *)
Definition ratingOfText (text field : string) : Q :=
  AnalyzeJs.computeRating (wordCount text) (technicalTermCount text)
    (confidenceWordCount text) (fillerWordCount text)
    (specificMetricCount text) (questionWordCount text) field text.

(** The last line of each rating computation:
    [Math.min(9, Math.max(1, Math.round(rating * 2) / 2))]. *)
Definition clampRound (r : Q) : Q :=
  Qmin 9 (Qmax 1 (inject_Z (JsNumber.Math_round (r * 2)) / 2)).



(** ** The specification's own definitions *)

Module Spec.

(** A character at which the text is split. *)
Definition whitespace (c : ascii) : bool := Regex.space c.

(** Split at every character of a class. *)
Fixpoint splitAt (sep : ascii -> bool) (s : string) : list string :=
  match s with
  | EmptyString => [EmptyString]
  | String c rest =>
      if sep c then EmptyString :: splitAt sep rest
      else match splitAt sep rest with
           | [] => [String c EmptyString]
           | w :: ws => String c w :: ws
           end
  end.

Definition nonEmpty (w : string) : bool :=
  match w with
  | EmptyString => false
  | String _ _ => true
  end.

(** "Split on runs of whitespace; discard zero-length tokens." *)
Definition wordCount (text : string) : Z :=
  Z.of_nat (List.length (filter nonEmpty (splitAt whitespace text))).







(** "M:SS, zero-padded seconds" of a time in seconds *)
Definition twoDigits (n : Z) : string :=
  if (n <? 10)%Z then "0" ++ JsString.ofZ n else JsString.ofZ n.

Definition formatMSS (seconds : Q) : string :=
  let whole := Qfloor seconds in
  JsString.ofZ (whole / 60) ++ ":" ++ twoDigits (whole mod 60).

(** The segment in the middle of the list, if there is one. *)
Definition midpoint {A : Type} (l : list A) : option A :=
  nth_error l (List.length l / 2).

(** "Derived from the midpoint Segment's start time (formatted M:SS,
    zero-padded seconds) if segments are available, else a fixed
    fallback 1:15." *)
Definition fillerTimestamp (segments : option (list Segment.t)) : string :=
  match segments with
  | None => "1:15"
  | Some segs =>
      match midpoint segs with
      | None => "1:15"
      | Some s => formatMSS (Segment.start s)
      end
  end.

(** "rating (number, 0-9, in 0.5 increments), mistakes (at most 3),
    tips (at most 5)" *)
Definition Bounded (r : AnalysisResult) : Prop :=
  0 <= rating r /\ rating r <= 9
  /\ (exists k : Z, rating r == inject_Z k / 2)
  /\ (List.length (mistakes r) <= 3)%nat
  /\ (List.length (tips r) <= 5)%nat.


(** No whitespace character other than U+0020 occurs in the text. *)
Definition onlySpaces (text : string) : bool :=
  forallb (fun c => negb (whitespace c) || Ascii.eqb c " ")
          (list_ascii_of_string text).

End Spec.

(** ** Sample inputs *)

(** Twenty plain words: no vocabulary word, no metric, no question. *)
Definition plainText : string :=
  "we met on monday and talked about the plan for the next quarter with the whole group in the room".

Definition plainTranscript : Transcript.t := Transcript.mk plainText None 0.

(** Twenty-one words, four of them fillers, with three segments. *)
Definition fillerTranscript : Transcript.t :=
  Transcript.mk
    "um so like we met on monday and um talked about the plan for the next quarter with the whole group"
    (Some [Segment.mk 0 60 "um so like we met on monday";
           Segment.mk (123 # 2) 70 "and um talked about the plan";
           Segment.mk 125 130 "for the next quarter with the whole group"])
    130.



(** Two words separated by a tab. *)
Definition tabbedText : string := "hello" ++ String "009" "world".

From Stdlib Require Import Permutation.

(** ** Transcription results

    The part of [transcribeVideoWithWhisper] (server.js, 83-104) that
    turns the parsed output of the transcription script into the
    transcript handed to [analyzeRealTranscription], and the part of
    [getRealTranscription] (analyze.js, 205-216) that does the same
    for the utterances of the transcription service. *)

(** The parsed JSON of the script: each property may be absent. *)
Module WhisperData.
Record t : Type :=
  mk { segments : option (list Segment.t);
       text : option string;
       duration : option Q }.
End WhisperData.

(** [arr.join(' ')] on an array of strings *)
Fixpoint join (sep : string) (arr : list string) : string :=
  match arr with
  | [] => ""
  | [x] => x
  | x :: rest => x ++ sep ++ join sep rest
  end.

(** [x || d] on a property that is absent, or present with a string
    (the empty string is falsy). *)
Definition stringOr (x : option string) (d : string) : string :=
  match x with
  | Some (String c s) => String c s
  | _ => d
  end.

(** [x || d] on an optional number (0 is falsy). *)
Definition numberOr (x : option Q) (d : Q) : Q :=
  match x with
  | Some q => if Qeq_bool q 0 then d else q
  | None => d
  end.

(** server.js, 92-104: an array, even an empty one, is truthy. *)
Definition whisperTranscript (data : WhisperData.t) : Transcript.t :=
  let fullText :=
    match WhisperData.segments data with
    | Some segments => join " " (map Segment.text segments)
    | None => stringOr (WhisperData.text data) ""
    end in
  Transcript.mk fullText
    (Some (match WhisperData.segments data with
           | Some segments => segments
           | None => []
           end))
    (numberOr (WhisperData.duration data) 0).

(** An utterance of the transcription service: times in milliseconds. *)
Module Utterance.
Record t : Type := mk { start : Z; end_ : Z; text : string }.
End Utterance.

(** analyze.js, 209-215: [u => ({start: u.start / 1000, ...})] *)
Definition utteranceSegment (u : Utterance.t) : Segment.t :=
  Segment.mk (inject_Z (Utterance.start u) / 1000)
             (inject_Z (Utterance.end_ u) / 1000)
             (Utterance.text u).


(** The number of U+0020 characters of a text. *)
Fixpoint spaceCount (text : string) : nat :=
  match text with
  | EmptyString => 0
  | String c rest =>
      (if Ascii.eqb c " " then 1 else 0) + spaceCount rest
  end.

(** ** src/server.js: accounts (lines 600-650, repeated at 1156-1206)

    [users] is a [Map] from the email to the user record.  A request
    body carries [name], [email] and [password], each absent or a
    string; [Date.now()] and [new Date().toISOString()] are inputs of
    the registration. *)

Module Auth.

(** [{id, name, email, password, joinDate, sessions}]; the server
    stores [sessions: []] and never adds to it. *)
Record User : Type := mkUser {
  id : Z;
  name : string;
  email : string;
  password : string;
  joinDate : string;
  sessions : list string
}.

(** [const { password: _, ...userResponse } = user] *)
Record UserResponse : Type := mkUserResponse {
  r_id : Z;
  r_name : string;
  r_email : string;
  r_joinDate : string;
  r_sessions : list string
}.

Definition withoutPassword (user : User) : UserResponse :=
  mkUserResponse (id user) (name user) (email user) (joinDate user)
                 (sessions user).

(** [res.json({user})] or [res.status(code).json({error})] *)
Inductive Response : Type :=
| Ok (user : UserResponse)
| Failed (status : Z) (error : string).

(** The [Map]: [new Map()], [has], [get], [set]. *)
Definition Users : Type := string -> option User.

Definition newMap : Users := fun _ => None.

Definition get (users : Users) (key : string) : option User := users key.

Definition has (users : Users) (key : string) : bool :=
  match users key with
  | Some _ => true
  | None => false
  end.

Definition set (users : Users) (key : string) (user : User) : Users :=
  fun k => if String.eqb k key then Some user else users k.

(** [!x] on a property that is absent or a string *)
Definition falsy (x : option string) : bool :=
  match x with
  | Some (String _ _) => false
  | _ => true
  end.

Definition valueOf (x : option string) : string :=
  match x with
  | Some s => s
  | None => ""
  end.

(** [app.post('/api/auth/register', ...)], lines 602-632 *)
Definition register (users : Users) (now : Z) (nowIso : string)
           (name email password : option string) : Users * Response :=
  if falsy name || falsy email || falsy password then
    (users, Failed 400 "All fields are required")
  else if has users (valueOf email) then
    (users, Failed 400 "User already exists")
  else
    let user :=
      mkUser now (valueOf name) (valueOf email) (valueOf password) nowIso []
    in
    (set users (valueOf email) user, Ok (withoutPassword user)).

(** [user.password !== password] *)
Definition differs (stored : string) (given : option string) : bool :=
  match given with
  | Some p => negb (String.eqb stored p)
  | None => true
  end.

(** [app.post('/api/auth/login', ...)], lines 634-650; an absent email
    is the key [undefined], under which nothing is stored. *)
Definition login (users : Users) (email password : option string)
  : Response :=
  match email with
  | None => Failed 401 "Invalid credentials"
  | Some e =>
      match get users e with
      | None => Failed 401 "Invalid credentials"
      | Some user =>
          if differs (Auth.password user) password
          then Failed 401 "Invalid credentials"
          else Ok (withoutPassword user)
      end
  end.

Inductive Request : Type :=
| Register (now : Z) (nowIso : string) (name email password : option string)
| Login (email password : option string).

Definition handle (users : Users) (req : Request) : Users * Response :=
  match req with
  | Register now nowIso name email password =>
      register users now nowIso name email password
  | Login email password => (users, login users email password)
  end.

(** The store after a sequence of requests. *)
Fixpoint serve (users : Users) (reqs : list Request) : Users :=
  match reqs with
  | [] => users
  | req :: rest => serve (fst (handle users req)) rest
  end.

(** What holds of every store the server can reach. *)
Definition Sound (users : Users) : Prop :=
  forall e u,
    get users e = Some u ->
    email u = e /\ e <> "" /\ name u <> "" /\ password u <> ""
    /\ sessions u = [].

End Auth.

(** ** src/server.js: interview questions (lines 347-456 and 785-872)

    The two copies of [app.post('/api/questions', ...)].  The inputs
    are the request body ([field], absent or a string, and the number
    [Number(req.body.count)]), the text of the language model's
    response ([None] when no key is configured, the call fails or the
    text is empty), and the order [sort(() => 0.5 - Math.random())]
    leaves the templates in. *)

Module Questions.
Import JsString.

(** A JavaScript number: [NaN], a finite value, or an infinity. *)
Inductive Number : Type :=
| NaN
| Finite (q : Q)
| Infinite (negative : bool).

(** [Math.max(1, Math.min(20, n || 7))]: [NaN] and 0 are falsy;
    [Math.min(20, Infinity)] is 20 and [Math.max(1, -Infinity)] is 1. *)
Definition requestedCount (n : Number) : Q :=
  match n with
  | NaN => Qmax 1 (Qmin 20 7)
  | Finite q => if Qeq_bool q 0 then Qmax 1 (Qmin 20 7) else Qmax 1 (Qmin 20 q)
  | Infinite false => Qmax 1 20
  | Infinite true => 1
  end.

(** [arr.slice(0, end)]: the end is truncated to an integer, and a
    negative end counts from the end of the array. *)
Definition sliceTo {A : Type} (end_ : Q) (arr : list A) : list A :=
  let relativeEnd := JsNumber.trunc end_ in
  if (relativeEnd <? 0)%Z
  then firstn (Z.to_nat (Z.of_nat (List.length arr) + relativeEnd)) arr
  else firstn (Z.to_nat relativeEnd) arr.

(** [s.trim()] *)
Fixpoint trimStart (s : string) : string :=
  match s with
  | EmptyString => EmptyString
  | String c rest => if Regex.space c then trimStart rest else s
  end.

Fixpoint trimEnd (s : string) : string :=
  match s with
  | EmptyString => EmptyString
  | String c rest =>
      match trimEnd rest with
      | EmptyString => if Regex.space c then EmptyString
                       else String c EmptyString
      | rest' => String c rest'
      end
  end.

Definition trim (s : string) : string := trimEnd (trimStart s).

(** [s.endsWith(c)] for one character *)
Fixpoint endsWith (s : string) (c : ascii) : bool :=
  match s with
  | EmptyString => false
  | String a EmptyString => Ascii.eqb a c
  | String _ rest => endsWith rest c
  end.

(** [arr.includes(x)] on strings *)
Definition member (arr : list string) (x : string) : bool :=
  existsb (String.eqb x) arr.

(** The double quote, U+0022. *)
Definition quote : ascii := "034".

(** [[\.\)\-\s]] *)
Definition separator (c : ascii) : bool :=
  Ascii.eqb c "." || Ascii.eqb c ")" || Ascii.eqb c "-" || Regex.space c.

(** [.]: any character but a line terminator *)
Definition dot (c : ascii) : bool :=
  negb (Ascii.eqb c "010" || Ascii.eqb c "013").

Fixpoint takeWhile (p : ascii -> bool) (s : string) : string :=
  match s with
  | EmptyString => EmptyString
  | String c rest => if p c then String c (takeWhile p rest) else EmptyString
  end.

Fixpoint drop (n : nat) (s : string) : string :=
  match n, s with
  | S n', String _ rest => drop n' rest
  | _, _ => s
  end.

(** [line.match(/^\d+[\.\)\-\s]+(.+)/)]: the first group of the match
    at the start of the line, if there is one.  The continuation stands
    for [(.+)] and the end of the pattern: it succeeds where a
    character other than a line terminator follows, and the group is
    then the longest run of such characters. *)
Definition matchNumbered (line : string) : option string :=
  match
    Regex.run (Regex.Seq (Regex.Plus Regex.digit) (Regex.Plus separator))
              None line 0
              (fun _ rest n =>
                 match rest with
                 | String c _ => if dot c then Some n else None
                 | EmptyString => None
                 end)
  with
  | Some groupStart => Some (takeWhile dot (drop groupStart line))
  | None => None
  end.

(** The replacement of line 396, [s.replace(/^[qqq]|[qqq]$/g, '')] with
    [q] the double quote: a quote at the start and a quote at the end
    are removed. *)
Fixpoint dropLastQuote (s : string) : string :=
  match s with
  | EmptyString => EmptyString
  | String c EmptyString =>
      if Ascii.eqb c quote then EmptyString else String c EmptyString
  | String c rest => String c (dropLastQuote rest)
  end.

Definition stripQuotes (s : string) : string :=
  match s with
  | String c rest => if Ascii.eqb c quote then dropLastQuote rest
                     else dropLastQuote s
  | EmptyString => EmptyString
  end.

(** [s.replace(/\s+/g, ' ')]: [inRun] tells that the character before
    was whitespace. *)
Fixpoint collapseFrom (inRun : bool) (s : string) : string :=
  match s with
  | EmptyString => EmptyString
  | String c rest =>
      if Regex.space c then
        if inRun then collapseFrom true rest
        else String " " (collapseFrom true rest)
      else String c (collapseFrom false rest)
  end.

Definition collapseSpaces (s : string) : string := collapseFrom false s.

(** The body of the loop over the lines, lines 393-399: the question a
    line yields, if any. *)
Definition questionOfLine (line : string) : option string :=
  let trimmed := trim line in
  match matchNumbered trimmed with
  | Some group =>
      if Nat.ltb 10 (String.length group) then
        let question := collapseSpaces (stripQuotes (trim group)) in
        let question :=
          if endsWith question "?" then question
          else question ++ "?" in
        Some question
      else None
  | None => None
  end.

(** Lines 388-400: the questions of a response text. *)
Definition parseQuestions (responseText : string) : list string :=
  let text := trim responseText in
  let lines := split "010" text in
  fold_left
    (fun questions line =>
       match questionOfLine line with
       | Some question =>
           if member questions question then questions
           else push questions question
       | None => questions
       end)
    lines [].

(** [questions.length >= Math.min(3, count)] *)
Definition enough (questions : list string) (count : Q) : bool :=
  Qle_bool (Qmin 3 count) (inject_Z (Z.of_nat (List.length questions))).

(** [res.json({questions, ai, source})] or
    [res.status(400).json({error})] *)
Inductive Reply : Type :=
| Questions (questions : list string) (ai : bool) (source : string)
| BadRequest (error : string).

(** The templates of the first copy, lines 417-439. *)
Definition softwareTemplates : list string :=
  ["Tell me about your experience with system design and architecture.";
   "How do you approach debugging a complex production issue?";
   "Describe a challenging technical problem you solved recently.";
   "How would you optimize a slow-performing database query?";
   "Explain your process for code reviews and maintaining code quality."].

Definition javaTemplates : list string :=
  ["Explain the difference between Java's heap and stack memory.";
   "How do you handle memory management and garbage collection in Java applications?";
   "Describe your experience with Java frameworks like Spring or Hibernate.";
   "How would you optimize Java application performance?";
   "Tell me about a complex Java multithreading problem you solved."].

Definition internTemplates : list string :=
  ["Why are you interested in this internship opportunity?";
   "Tell me about a challenging project you worked on during your studies.";
   "How do you prioritize your tasks when working on multiple assignments?";
   "Describe a time you had to learn a new technology or skill quickly.";
   "How would you handle receiving constructive criticism on your work?"].

(** Lines 441-445 *)
Definition selectedTemplates (field : string) : list string :=
  let fieldLower := toLowerCase field in
  if includes fieldLower "java" then javaTemplates
  else if includes fieldLower "intern" then internTemplates
  else softwareTemplates.


(** The handler, with the templates of one copy or the other. *)
Definition questionsHandler (templates : string -> list string)
           (shuffle : list string -> list string)
           (field : option string) (count : Number)
           (response : option string) : Reply :=
  let field := trim (stringOr field "") in
  let count := requestedCount count in
  match field with
  | EmptyString => BadRequest "field is required"
  | _ =>
      let fallback :=
        Questions (sliceTo count (shuffle (templates field))) false
                  "fallback" in
      match response with
      | Some (String c s) =>
          let questions := parseQuestions (String c s) in
          if enough questions count
          then Questions (sliceTo count questions) true "cohere-chat"
          else fallback
      | _ => fallback
      end
  end.

(** Every whitespace character is a single U+0020, not next to another:
    [afterSpace] tells that the character before was a space. *)
Fixpoint singleSpaced (afterSpace : bool) (s : string) : bool :=
  match s with
  | EmptyString => true
  | String c rest =>
      if Regex.space c
      then Ascii.eqb c " " && negb afterSpace && singleSpaced true rest
      else singleSpaced false rest
  end.

(** The first character is a decimal digit. *)
Definition startsWithDigit (s : string) : bool :=
  match s with
  | String c _ => Regex.digit c
  | EmptyString => false
  end.

(** What every question of a parsed response satisfies. *)
Definition WellFormedQuestion (q : string) : Prop :=
  endsWith q "?" = true /\ singleSpaced false q = true.

(** Lines 347-456 *)
Definition questionsFirst := questionsHandler selectedTemplates.


End Questions.

(** ** src/api/analyze.js: the analysis without transcription

    The parts of [generateSmartVideoAnalysis] (lines 373-506) that do
    not print a double: the estimate of the duration (379-389), the
    hash of the input string (416-422) and the choice of the mistakes
    (455-487).  The duration and the rating are binary64 values. *)

Module SmartAnalysis.

(** [Math.max] and [Math.min] of two doubles: [NaN] if either is
    [NaN]; of two zeros, the positive one is the larger. *)
Definition Math_max (a b : float) : float :=
  if PrimFloat.is_nan a || PrimFloat.is_nan b then PrimFloat.nan
  else if PrimFloat.ltb a b then b
  else if PrimFloat.ltb b a then a
  else if PrimFloat.get_sign a then b else a.

Definition Math_min (a b : float) : float :=
  if PrimFloat.is_nan a || PrimFloat.is_nan b then PrimFloat.nan
  else if PrimFloat.ltb a b then a
  else if PrimFloat.ltb b a then b
  else if PrimFloat.get_sign a then a else b.

(** Lines 379-389: [estimatedDurationSeconds] from the MIME type and
    the size of the file. *)
Definition estimatedDuration (mimeType : string) (fileSize : float) : float :=
  let estimatedDurationSeconds := 30%float in
  if JsString.includes mimeType "webm" then
    if PrimFloat.ltb (5 * 1024 * 1024)%float fileSize then
      Math_max 30 (Math_min 300 (fileSize / (1024 * 60))%float)
    else
      Math_max 10 (Math_min 180 (fileSize / (1024 * 100))%float)
  else if JsString.includes mimeType "mp4" then
    Math_max 15 (Math_min 300 (fileSize / (1024 * 80))%float)
  else estimatedDurationSeconds.

(** [ToInt32]: the value modulo 2^32, in [-2^31, 2^31). *)
Definition toInt32 (z : Z) : Z := ((z + 2 ^ 31) mod 2 ^ 32 - 2 ^ 31)%Z.

(** Lines 418-421, one turn of the loop:
    [hash = ((hash << 5) - hash) + hashInput.charCodeAt(i);
     hash = hash & hash]. *)
Definition hashStep (hash : Z) (c : ascii) : Z :=
  let shifted := toInt32 (toInt32 hash * 2 ^ 5) in
  let hash := (shifted - hash + Z.of_nat (JsString.code c))%Z in
  toInt32 hash.

Fixpoint hashFrom (hash : Z) (hashInput : string) : Z :=
  match hashInput with
  | EmptyString => hash
  | String c rest => hashFrom (hashStep hash c) rest
  end.

(** Lines 416-422: [fileHash = Math.abs(hash)] *)
Definition fileHash (hashInput : string) : Z := Z.abs (hashFrom 0 hashInput).

(** Lines 472-478 *)
Definition mistakePool (field : string) : list Mistake.t :=
  [Mistake.mk "0:45"
     ("Include more specific " ++ field
      ++ " technologies and frameworks you've worked with");
   Mistake.mk "1:20"
     "Provide quantifiable metrics and measurable outcomes from your experience";
   Mistake.mk "1:50"
     "Use more confident language when describing your technical abilities";
   Mistake.mk "2:15"
     "Structure responses using STAR method (Situation, Task, Action, Result)";
   Mistake.mk "1:35"
     "Maintain better eye contact with the camera throughout your response"].

(** [mistakes.some(m => m.text === text)] *)
Definition hasText (mistakes : list Mistake.t) (text : string) : bool :=
  existsb (fun m => String.eqb (Mistake.text m) text) mistakes.

(** Lines 482-487: the turns [i, i+1, ...] of the loop, [turns] of them
    at most.  [mistakePool[index]] is [undefined] outside the pool, and
    reading its [.text] throws. *)
Fixpoint selectFrom (turns : nat) (i : Z) (fileHash : Z)
         (pool mistakes : list Mistake.t) : Completion (list Mistake.t) :=
  match turns with
  | O => Normal mistakes
  | S turns' =>
      if (Z.of_nat (List.length mistakes) <? 3)%Z then
        let index := Z.rem (fileHash + i * 3) (Z.of_nat (List.length pool)) in
        match (if (index <? 0)%Z then None
               else nth_error pool (Z.to_nat index)) with
        | None => Throw TypeError
        | Some m =>
            selectFrom turns' (i + 1) fileHash pool
                       (if hasText mistakes (Mistake.text m)
                        then mistakes else push mistakes m)
        end
      else Normal mistakes
  end.

(** Lines 455-487: the mistakes, from the estimated duration, the
    rating, the hash and the field. *)
Definition selectMistakes (estimatedDurationSeconds rating : float)
           (fileHash : Z) (field : string) : Completion (list Mistake.t) :=
  let mistakes := [] in
  let mistakes :=
    if PrimFloat.ltb estimatedDurationSeconds 45 then
      push mistakes
        (Mistake.mk "0:30"
           "Provide more comprehensive responses - aim for 1-2 minutes per answer with specific examples")
    else mistakes in
  let mistakes :=
    if PrimFloat.ltb 240 estimatedDurationSeconds then
      push mistakes
        (Mistake.mk "3:30"
           "Consider being more concise - focus on the most impactful points and key achievements")
    else mistakes in
  let numMistakes :=
    if PrimFloat.leb 8 rating then 1%nat
    else if PrimFloat.leb 6.5 rating then 2%nat
    else 3%nat in
  selectFrom numMistakes 0 fileHash (mistakePool field) mistakes.

(** Java's [String.hashCode]: the polynomial in 31 over the code units
    of the string. *)
Fixpoint polynomial31 (acc : Z) (s : string) : Z :=
  match s with
  | EmptyString => acc
  | String c rest =>
      polynomial31 (31 * acc + Z.of_nat (JsString.code c))%Z rest
  end.

(** [(m1, e1)] is at most [(m2, e2)] as mantissa and exponent of two
    positive doubles. *)
Definition lexLe (m1 : positive) (e1 : Z) (m2 : positive) (e2 : Z) : Prop :=
  (e1 < e2)%Z \/ (e1 = e2 /\ (m1 <= m2)%positive).

End SmartAnalysis.

(** ** Letter case *)

(** The transcript with its text in lower case. *)
Definition lowerTranscript (t : Transcript.t) : Transcript.t :=
  Transcript.mk (JsString.toLowerCase (Transcript.text t))
                (Transcript.segments t) (Transcript.duration t).

Definition asciiChar (c : ascii) : bool := Nat.ltb (JsString.code c) 128.

Fixpoint asciiString (s : string) : bool :=
  match s with
  | EmptyString => true
  | String c rest => asciiChar c && asciiString rest
  end.

(** A pattern whose literals are ASCII and whose classes do not tell a
    letter from its lower case. *)
Fixpoint CaseBlind (r : Regex.regex) : Prop :=
  match r with
  | Regex.Lit s => asciiString s = true
  | Regex.WordB => True
  | Regex.Plus cls | Regex.Star cls =>
      forall c, cls (JsString.lowerChar c) = cls c
  | Regex.Seq r1 r2 | Regex.Alt r1 r2 => CaseBlind r1 /\ CaseBlind r2
  | Regex.Fail => True
  end.

Definition lowerPrev (prev : option ascii) : option ascii :=
  match prev with
  | Some c => Some (JsString.lowerChar c)
  | None => None
  end.

(** ** Arithmetic of the rating *)

Section Rating.


Lemma plusIf_mono (c1 c2 : bool) (d r1 r2 : Q) :
  (c1 = true -> c2 = true) -> 0 <= d -> r1 <= r2 ->
  plusIf c1 d r1 <= plusIf c2 d r2.
Proof.
  intros Hc Hd Hr. destruct c1, c2; simpl.
  - apply Qplus_le_compat; [assumption | apply Qle_refl].
  - discriminate (Hc eq_refl).
  - setoid_replace r1 with (r1 + 0) by ring.
    apply Qplus_le_compat; assumption.
  - assumption.
Qed.

Lemma plusIf_lower (c : bool) (d lo r : Q) :
  0 <= d -> lo <= r -> lo <= plusIf c d r.
Proof.
  intros Hd Hr. destruct c; simpl; [| assumption].
  setoid_replace lo with (lo + 0) by ring.
  apply Qplus_le_compat; assumption.
Qed.

Lemma half_round_mono (a b : Q) :
  a <= b ->
  inject_Z (JsNumber.Math_round (a * 2)) / 2
  <= inject_Z (JsNumber.Math_round (b * 2)) / 2.
Proof.
  intro H. unfold JsNumber.Math_round.
  apply Qmult_le_compat_r; [| discriminate].
  rewrite <- Zle_Qle. apply Qfloor_resp_le.
  apply Qplus_le_compat; [| apply Qle_refl].
  apply Qmult_le_compat_r; [assumption | discriminate].
Qed.

Lemma clampRound_mono (a b : Q) : a <= b -> clampRound a <= clampRound b.
Proof.
  intro H. unfold clampRound.
  apply Q.min_le_compat; [apply Qle_refl |].
  apply Q.max_le_compat; [apply Qle_refl |].
  now apply half_round_mono.
Qed.


Lemma clampRound_range (r : Q) : 1 <= clampRound r /\ clampRound r <= 9.
Proof.
  unfold clampRound. split.
  - apply Q.min_glb; [discriminate | apply Q.le_max_l].
  - apply Q.le_min_l.
Qed.


(** The result is a multiple of 0.5. *)
Lemma clampRound_half (r : Q) : exists k : Z, clampRound r == inject_Z k / 2.
Proof.
  unfold clampRound.
  destruct (Q.min_spec 9 (Qmax 1 (inject_Z (JsNumber.Math_round (r * 2)) / 2)))
    as [[_ E] | [_ E]].
  - exists 18%Z. rewrite E. reflexivity.
  - destruct (Q.max_spec 1 (inject_Z (JsNumber.Math_round (r * 2)) / 2))
      as [[_ E'] | [_ E']].
    + exists (JsNumber.Math_round (r * 2)). rewrite E, E'. reflexivity.
    + exists 2%Z. rewrite E, E'. reflexivity.
Qed.


End Rating.

(** ** Shape of the general branch *)

Section General.

Lemma midPoint_div (n : nat) :
  JsNumber.Math_floor (inject_Z (Z.of_nat n) / 2) = (Z.of_nat n / 2)%Z.
Proof.
  unfold JsNumber.Math_floor. symmetry. apply (Zdiv_Qdiv (Z.of_nat n) 2).
Qed.

Lemma midPoint_in_range (n : nat) :
  (0 < n)%nat ->
  (Z.to_nat (JsNumber.Math_floor (inject_Z (Z.of_nat n) / 2)) < n)%nat.
Proof.
  intro H. rewrite midPoint_div.
  assert (Z.of_nat n / 2 < Z.of_nat n)%Z by (apply Z.div_lt; lia).
  assert (0 <= Z.of_nat n / 2)%Z by (apply Z.div_pos; lia).
  lia.
Qed.

(** [segments[midPoint]] is defined when the array is not empty, so
    the read of [.start] does not throw. *)
Lemma findFillerTimestamp_total (segments : option (list Segment.t))
      (fillerCount : Z) :
  exists ts, AnalyzeJs.findFillerTimestamp segments fillerCount = Normal ts.
Proof.
  unfold AnalyzeJs.findFillerTimestamp.
  destruct segments as [segs |]; [| now eexists].
  destruct (Z.eqb_spec (Z.of_nat (List.length segs)) 0) as [E | N];
    [now eexists |].
  assert (Hlen : (0 < List.length segs)%nat) by lia.
  pose proof (midPoint_in_range _ Hlen) as Hmid.
  apply nth_error_Some in Hmid.
  destruct (nth_error segs _) as [seg |]; [now eexists | congruence].
Qed.

Lemma orEmpty_id (s : string) : JsString.orEmpty s = s.
Proof. now destruct s. Qed.

Lemma firstn_bound {A : Type} (n : nat) (l : list A) :
  (List.length (JsString.slice0 n l) <= n)%nat.
Proof. unfold JsString.slice0. rewrite length_firstn. lia. Qed.

Lemma analyzeRealSpeech_general (t : Transcript.t) (field : string) :
  (20 <= wordCount (Transcript.text t))%Z ->
  exists ms tps sm,
    AnalyzeJs.analyzeRealSpeech t field
    = Normal (mkResult (ratingOfText (Transcript.text t) field)
                       (JsString.slice0 3 ms) (JsString.slice0 5 tps) sm).
Proof.
  intro H. unfold AnalyzeJs.analyzeRealSpeech.
  fold (wordCount (Transcript.text t)).
  destruct (Z.ltb_spec (wordCount (Transcript.text t)) 5) as [? | _];
    [lia |].
  destruct (Z.ltb_spec (wordCount (Transcript.text t)) 20) as [? | _];
    [lia |].
  cbv zeta.
  destruct (JsNumber.gtQ _ _).
  - destruct (findFillerTimestamp_total (Transcript.segments t)
                (Regex.countMatches Patterns.fillerWords (Transcript.text t)))
      as [ts ->].
    cbn [bind]. do 3 eexists. reflexivity.
  - cbn [bind]. do 3 eexists. reflexivity.
Qed.

Lemma analyzeRealTranscription_general (t : Transcript.t) (field : string) :
  (20 <= wordCount (Transcript.text t))%Z ->
  exists ms tps sm,
    ServerJs.analyzeRealTranscription t field
    = Normal (mkResult (ratingOfText (Transcript.text t) field)
                       (JsString.slice0 3 ms) (JsString.slice0 5 tps) sm).
Proof.
  intro H. unfold ServerJs.analyzeRealTranscription.
  rewrite orEmpty_id.
  fold (wordCount (Transcript.text t)).
  destruct (Z.ltb_spec (wordCount (Transcript.text t)) 5) as [? | _];
    [lia |].
  destruct (Z.ltb_spec (wordCount (Transcript.text t)) 20) as [? | _];
    [lia |].
  do 3 eexists. reflexivity.
Qed.

End General.

(** ** Formatting a start time *)

Section Timestamp.




Lemma trunc_nonneg (x : Q) : 0 <= x -> JsNumber.trunc x = Qfloor x.
Proof.
  intro H. unfold JsNumber.trunc.
  apply Qle_bool_iff in H. now rewrite H.
Qed.




End Timestamp.

(** ** The rating against the weighted rule *)

Section WeightedRule.

Lemma ltQ_dec (a b : Q) :
  JsNumber.ltQ a b = if Qlt_le_dec a b then true else false.
Proof.
  unfold JsNumber.ltQ. destruct (Qlt_le_dec a b) as [Hlt | Hle].
  - destruct (Qle_bool b a) eqn:E; [| reflexivity].
    apply Qle_bool_iff in E. exfalso. exact (Qlt_not_le _ _ Hlt E).
  - apply Qle_bool_iff in Hle. now rewrite Hle.
Qed.





Ltac mono_cond :=
  let Hc := fresh "Hc" in
  intro Hc; try exact Hc;
  rewrite ?andb_true_iff, ?Z.gtb_lt in *; intuition lia.

Lemma computeRating_mono_technical
      (wc a b cw fw sm qw : Z) (field text : string) :
  (a <= b)%Z ->
  AnalyzeJs.computeRating wc a cw fw sm qw field text
  <= AnalyzeJs.computeRating wc b cw fw sm qw field text.
Proof.
  intro H. unfold AnalyzeJs.computeRating. cbv zeta.
  apply clampRound_mono.
  repeat (apply plusIf_mono; [mono_cond | discriminate |]).
  apply Qle_refl.
Qed.


End WeightedRule.

(** ** Splitting into words *)

Section Words.

Lemma whitespace_space : Spec.whitespace " " = true.
Proof. reflexivity. Qed.

Lemma split_splitAt (text : string) :
  Spec.onlySpaces text = true ->
  JsString.split " " text = Spec.splitAt Spec.whitespace text.
Proof.
  unfold Spec.onlySpaces. induction text as [| c rest IH]; [reflexivity |].
  simpl. intro H. apply andb_true_iff in H. destruct H as [Hc Hrest].
  rewrite (IH Hrest).
  destruct (Ascii.eqb_spec c " ") as [-> | Hne].
  - now rewrite whitespace_space.
  - rewrite orb_false_r in Hc. apply negb_true_iff in Hc.
    now rewrite Hc.
Qed.

Lemma nonEmpty_length (w : string) :
  Nat.ltb 0 (String.length w) = Spec.nonEmpty w.
Proof. now destruct w. Qed.

Lemma wordCountOf_spec (text : string) :
  Spec.onlySpaces text = true -> ServerJs.wordCountOf text = Spec.wordCount text.
Proof.
  intro H. unfold ServerJs.wordCountOf, Spec.wordCount.
  rewrite (split_splitAt _ H). do 2 f_equal.
  apply filter_ext. intro w. apply nonEmpty_length.
Qed.

End Words.

(** ** The three branches of the analysis *)

Section Branches.

Variable t : Transcript.t.
Variable field : string.

Lemma analyzeRealSpeech_noSpeech :
  (wordCount (Transcript.text t) < 5)%Z ->
  AnalyzeJs.analyzeRealSpeech t field = Normal AnalyzeJs.noSpeech.
Proof.
  intro H. unfold AnalyzeJs.analyzeRealSpeech. fold (wordCount (Transcript.text t)).
  destruct (Z.ltb_spec (wordCount (Transcript.text t)) 5); [reflexivity | lia].
Qed.

Lemma analyzeRealSpeech_tooBrief :
  (5 <= wordCount (Transcript.text t) < 20)%Z ->
  AnalyzeJs.analyzeRealSpeech t field
  = Normal (AnalyzeJs.tooBrief (wordCount (Transcript.text t))).
Proof.
  intro H. unfold AnalyzeJs.analyzeRealSpeech. fold (wordCount (Transcript.text t)).
  destruct (Z.ltb_spec (wordCount (Transcript.text t)) 5); [lia |].
  destruct (Z.ltb_spec (wordCount (Transcript.text t)) 20); [reflexivity | lia].
Qed.

Lemma analyzeRealTranscription_noSpeech :
  (wordCount (Transcript.text t) < 5)%Z ->
  ServerJs.analyzeRealTranscription t field = Normal ServerJs.noSpeech.
Proof.
  intro H. unfold ServerJs.analyzeRealTranscription.
  rewrite orEmpty_id. fold (wordCount (Transcript.text t)).
  destruct (Z.ltb_spec (wordCount (Transcript.text t)) 5); [reflexivity | lia].
Qed.

Lemma analyzeRealTranscription_tooBrief :
  (5 <= wordCount (Transcript.text t) < 20)%Z ->
  ServerJs.analyzeRealTranscription t field
  = Normal (ServerJs.tooBrief (wordCount (Transcript.text t))).
Proof.
  intro H. unfold ServerJs.analyzeRealTranscription.
  rewrite orEmpty_id. fold (wordCount (Transcript.text t)).
  destruct (Z.ltb_spec (wordCount (Transcript.text t)) 5); [lia |].
  destruct (Z.ltb_spec (wordCount (Transcript.text t)) 20); [reflexivity | lia].
Qed.

Lemma Bounded_general (ms : list Mistake.t) (tps : list string)
      (sm : string) :
  Spec.Bounded (mkResult (ratingOfText (Transcript.text t) field) (JsString.slice0 3 ms)
                    (JsString.slice0 5 tps) sm).
Proof.
  unfold Spec.Bounded, ratingOfText, AnalyzeJs.computeRating. cbv zeta.
  cbn [rating mistakes tips].
  match goal with
  | |- context [Qmin 9 (Qmax 1 (inject_Z (JsNumber.Math_round (?r * 2)) / 2))] =>
      change (Qmin 9 (Qmax 1 (inject_Z (JsNumber.Math_round (r * 2)) / 2)))
        with (clampRound r);
      pose proof (clampRound_range r) as [Hlo Hhi];
      pose proof (clampRound_half r) as Hk
  end.
  repeat split.
  - eapply Qle_trans; [| exact Hlo]. apply Qle_bool_iff. reflexivity.
  - exact Hhi.
  - exact Hk.
  - apply firstn_bound.
  - apply firstn_bound.
Qed.

Lemma Bounded_noSpeech_js : Spec.Bounded AnalyzeJs.noSpeech.
Proof.
  unfold Spec.Bounded; simpl. repeat split; try discriminate; try lia.
  exists 0%Z. reflexivity.
Qed.

Lemma Bounded_noSpeech_server : Spec.Bounded ServerJs.noSpeech.
Proof.
  unfold Spec.Bounded; simpl. repeat split; try discriminate; try lia.
  exists 0%Z. reflexivity.
Qed.

Lemma Bounded_tooBrief_js (n : Z) : Spec.Bounded (AnalyzeJs.tooBrief n).
Proof.
  unfold Spec.Bounded; simpl. repeat split; try discriminate; try lia.
  exists 4%Z. reflexivity.
Qed.

Lemma Bounded_tooBrief_server (n : Z) : Spec.Bounded (ServerJs.tooBrief n).
Proof.
  unfold Spec.Bounded; simpl. repeat split; try discriminate; try lia.
  exists 4%Z. reflexivity.
Qed.

Lemma analyzeRealSpeech_bounded :
  exists r, AnalyzeJs.analyzeRealSpeech t field = Normal r /\ Spec.Bounded r.
Proof.
  destruct (Z.lt_ge_cases (wordCount (Transcript.text t)) 5) as [H5 | H5].
  { rewrite (analyzeRealSpeech_noSpeech H5).
    eexists; split; [reflexivity | apply Bounded_noSpeech_js]. }
  destruct (Z.lt_ge_cases (wordCount (Transcript.text t)) 20) as [H20 | H20].
  { rewrite (analyzeRealSpeech_tooBrief (conj H5 H20)).
    eexists; split; [reflexivity | apply Bounded_tooBrief_js]. }
  destruct (analyzeRealSpeech_general t field H20) as (ms & tps & sm & E).
  rewrite E. eexists; split; [reflexivity | apply Bounded_general].
Qed.

Lemma analyzeRealTranscription_bounded :
  exists r, ServerJs.analyzeRealTranscription t field = Normal r /\ Spec.Bounded r.
Proof.
  destruct (Z.lt_ge_cases (wordCount (Transcript.text t)) 5) as [H5 | H5].
  { rewrite (analyzeRealTranscription_noSpeech H5).
    eexists; split; [reflexivity | apply Bounded_noSpeech_server]. }
  destruct (Z.lt_ge_cases (wordCount (Transcript.text t)) 20) as [H20 | H20].
  { rewrite (analyzeRealTranscription_tooBrief (conj H5 H20)).
    eexists; split; [reflexivity | apply Bounded_tooBrief_server]. }
  destruct (analyzeRealTranscription_general t field H20)
    as (ms & tps & sm & E).
  rewrite E. eexists; split; [reflexivity | apply Bounded_general].
Qed.

End Branches.

(** ** The filler-word mistake *)

Section FillerMistake.






End FillerMistake.

(** ** The sample inputs, evaluated *)

Example plainText_wordCount : wordCount plainText = 20%Z.
Proof. reflexivity. Qed.

Example fillerTranscript_counts :
  wordCount (Transcript.text fillerTranscript) = 21%Z
  /\ fillerWordCount (Transcript.text fillerTranscript) = 4%Z.
Proof. split; vm_compute; reflexivity. Qed.

Example fillerTranscript_result :
  exists r,
    AnalyzeJs.analyzeRealSpeech fillerTranscript "java" = Normal r
    /\ rating r == 4
    /\ map Mistake.timestamp (mistakes r) = ["1:01"; "0:30"].
Proof. eexists. split; [vm_compute; reflexivity | split; reflexivity]. Qed.

(** [''.split(' ')] is [['']]: the count of [analyzeRealSpeech] on the
    empty text is 1, that of [analyzeTranscription] is 0. *)
Example empty_text_wordCounts :
  wordCount "" = 1%Z /\ ServerJs.wordCountOf "" = 0%Z.
Proof. split; reflexivity. Qed.

Example metric_needs_word_after_percent :
  specificMetricCount "grew 50% in 3 years" = 1%Z
  /\ specificMetricCount "grew by 50%" = 0%Z.
Proof. split; vm_compute; reflexivity. Qed.

Example percent_in_doubles : JsNumber.percent 29 200 = "14".
Proof. vm_compute. reflexivity. Qed.

(** Whole words only, in any case; the first alternative that lets the
    closing [\b] succeed is taken. *)
Example technical_terms_whole_words :
  technicalTermCount "Java and JavaScript, not javax or databases" = 2%Z.
Proof. vm_compute. reflexivity. Qed.

Example filler_phrases :
  fillerWordCount "You know, it was sort of okay. Knowledge, er, matters"
  = 4%Z.
Proof. vm_compute. reflexivity. Qed.

(** ** Properties of the analysis *)








(** C4, as the code has it.  The words are the pieces between single
    U+0020 characters; [analyzeTranscription] discards the empty ones.
    On a text whose only whitespace is U+0020 its word count is the
    number of non-empty whitespace-delimited tokens, and on the empty
    text the word count and the three vocabulary counts are 0. *)
Theorem wordCount_on_spaces (text : string) :
  Spec.onlySpaces text = true ->
  ServerJs.wordCountOf text = Spec.wordCount text
  /\ (text = "" ->
      ServerJs.wordCountOf text = 0%Z
      /\ Regex.countMatches Patterns.technicalTermsShort text = 0%Z
      /\ Regex.countMatches Patterns.confidenceWordsShort text = 0%Z
      /\ Regex.countMatches Patterns.fillerWordsShort text = 0%Z
      /\ rating (ServerJs.analyzeTranscription (Transcript.mk text None 0) "")
         = 0).
Proof.
  intro H. split.
  - now apply wordCountOf_spec.
  - intros ->. repeat split.
Qed.

Lemma wordCount_on_spaces_witness :
  Spec.onlySpaces "" = true
  /\ ServerJs.wordCountOf "" = Spec.wordCount ""
  /\ ("" = "" ->
      ServerJs.wordCountOf "" = 0%Z
      /\ Regex.countMatches Patterns.technicalTermsShort "" = 0%Z
      /\ Regex.countMatches Patterns.confidenceWordsShort "" = 0%Z
      /\ Regex.countMatches Patterns.fillerWordsShort "" = 0%Z
      /\ rating (ServerJs.analyzeTranscription (Transcript.mk "" None 0) "")
         = 0).
Proof.
  split.
  - reflexivity.
  - apply (wordCount_on_spaces ""). reflexivity.
Defined.

(** C4, as stated, fails on two words separated by a tab: both word
    counts of the code are 1, the count over runs of whitespace is 2. *)
Lemma wordCount_tab_counterexample :
  ServerJs.wordCountOf tabbedText = 1%Z
  /\ wordCount tabbedText = 1%Z
  /\ Spec.wordCount tabbedText = 2%Z
  /\ ServerJs.wordCountOf tabbedText <> Spec.wordCount tabbedText.
Proof. repeat split. discriminate. Qed.

(** C5.  For every transcript and field, short-circuit branches
    included, the result has at most 3 mistakes and at most 5 tips. *)
Theorem mistakes_and_tips_bounded (t : Transcript.t) (field : string) :
  exists r r',
    AnalyzeJs.analyzeRealSpeech t field = Normal r
    /\ ServerJs.analyzeRealTranscription t field = Normal r'
    /\ (List.length (mistakes r) <= 3)%nat
    /\ (List.length (tips r) <= 5)%nat
    /\ (List.length (mistakes r') <= 3)%nat
    /\ (List.length (tips r') <= 5)%nat.
Proof.
  destruct (analyzeRealSpeech_bounded t field)
    as (r & E & _ & _ & _ & Hm & Ht).
  destruct (analyzeRealTranscription_bounded t field)
    as (r' & E' & _ & _ & _ & Hm' & Ht').
  exists r, r'. tauto.
Qed.

(** C6.  For every transcript (a string, with an absent, empty or
    non-empty list of segments) and every field the analysis returns
    normally, with a rating between 0 and 9 that is a multiple of 0.5;
    it does not throw. *)
Theorem analyze_total (t : Transcript.t) (field : string) :
  exists r r',
    AnalyzeJs.analyzeRealSpeech t field = Normal r
    /\ ServerJs.analyzeRealTranscription t field = Normal r'
    /\ 0 <= rating r /\ rating r <= 9
    /\ (exists k : Z, rating r == inject_Z k / 2)
    /\ 0 <= rating r' /\ rating r' <= 9
    /\ (exists k : Z, rating r' == inject_Z k / 2).
Proof.
  destruct (analyzeRealSpeech_bounded t field)
    as (r & E & Hlo & Hhi & Hk & _).
  destruct (analyzeRealTranscription_bounded t field)
    as (r' & E' & Hlo' & Hhi' & Hk' & _).
  exists r, r'. tauto.
Qed.



(** The timestamps the two branches of C7 produce on concrete lists. *)
Example fillerTimestamp_samples :
  Spec.fillerTimestamp None = "1:15"
  /\ Spec.fillerTimestamp (Some []) = "1:15"
  /\ Spec.fillerTimestamp (Transcript.segments fillerTranscript)
     = "1:01".
Proof. repeat split. Qed.

(** C8.  With the field, the text and the other counts fixed, raising
    the technical-term count does not lower the rating; in particular
    not from 0 to 3, on any word count (at least 20 or not). *)
Theorem rating_monotone_in_technical_terms
        (wc cw fw sm qw : Z) (field text : string) (a b : Z) :
  (a <= b)%Z ->
  AnalyzeJs.computeRating wc a cw fw sm qw field text
  <= AnalyzeJs.computeRating wc b cw fw sm qw field text.
Proof. apply computeRating_mono_technical. Qed.

Lemma rating_monotone_in_technical_terms_witness :
  (0 <= 3)%Z
  /\ AnalyzeJs.computeRating 60 0 5 0 1 0 "senior java" "java"
     <= AnalyzeJs.computeRating 60 3 5 0 1 0 "senior java" "java".
Proof.
  split; [lia |].
  apply (rating_monotone_in_technical_terms 60 5 0 1 0 "senior java" "java"
                                            0 3).
  lia.
Defined.

(** C9, as the code has it.  The scorer of analyze.js and
    [analyzeRealTranscription] of server.js return the same rating on
    every transcript and field. *)
Theorem ratings_agree (t : Transcript.t) (field : string) :
  exists r r',
    AnalyzeJs.analyzeRealSpeech t field = Normal r
    /\ ServerJs.analyzeRealTranscription t field = Normal r'
    /\ rating r = rating r'.
Proof.
  destruct (Z.lt_ge_cases (wordCount (Transcript.text t)) 5) as [H5 | H5].
  { rewrite (analyzeRealSpeech_noSpeech _ _ H5),
      (analyzeRealTranscription_noSpeech _ _ H5).
    do 2 eexists. split; [reflexivity | split; reflexivity]. }
  destruct (Z.lt_ge_cases (wordCount (Transcript.text t)) 20) as [H20 | H20].
  { rewrite (analyzeRealSpeech_tooBrief _ _ (conj H5 H20)),
      (analyzeRealTranscription_tooBrief _ _ (conj H5 H20)).
    do 2 eexists. split; [reflexivity | split; reflexivity]. }
  destruct (analyzeRealSpeech_general t field H20) as (ms & tps & sm & E).
  destruct (analyzeRealTranscription_general t field H20)
    as (ms' & tps' & sm' & E').
  do 2 eexists. split; [exact E | split; [exact E' | reflexivity]].
Qed.

(** C9, as stated, fails on twenty plain words: [analyzeRealSpeech]
    rates them 4.5, [analyzeTranscription] 5.5. *)
Lemma ratings_differ_counterexample :
  (exists r,
      AnalyzeJs.analyzeRealSpeech plainTranscript "software" = Normal r
      /\ rating r == 9 # 2)
  /\ rating (ServerJs.analyzeTranscription plainTranscript "software")
     == 11 # 2
  /\ ~ (9 # 2 == 11 # 2).
Proof.
  split; [| split].
  - eexists. split; [vm_compute; reflexivity | reflexivity].
  - vm_compute. reflexivity.
  - discriminate.
Qed.



(** ** Words and spaces *)

Section WordsAndSpaces.

Lemma split_nonempty (sep : ascii) (s : string) : JsString.split sep s <> [].
Proof.
  destruct s as [| c rest]; simpl; [discriminate |].
  destruct (Ascii.eqb c sep); [discriminate |].
  destruct (JsString.split sep rest); discriminate.
Qed.

Lemma split_space_length (text : string) :
  List.length (JsString.split " " text) = S (spaceCount text).
Proof.
  induction text as [| c rest IH]; [reflexivity |].
  simpl. destruct (Ascii.eqb c " "); simpl.
  - now rewrite IH.
  - destruct (JsString.split " " rest) eqn:E.
    + now destruct (split_nonempty " " rest).
    + exact IH.
Qed.

(** X1.  [text.split(' ').length] is the number of spaces plus one: the
    word count of [analyzeRealSpeech] and [analyzeRealTranscription] is
    never 0, and every space adds a word, also a leading, trailing or
    doubled one. *)
Theorem wordCount_spaces (text : string) :
  wordCount text = Z.of_nat (spaceCount text + 1)
  /\ (1 <= wordCount text)%Z
  /\ wordCount (" " ++ text) = (wordCount text + 1)%Z
  /\ wordCount (text ++ " ") = (wordCount text + 1)%Z.
Proof.
  assert (H : forall s, wordCount s = Z.of_nat (spaceCount s + 1)).
  { intro s. unfold wordCount. rewrite split_space_length. f_equal. lia. }
  assert (Happ : forall a b, spaceCount (a ++ b)
                             = (spaceCount a + spaceCount b)%nat).
  { intros a b. induction a as [| c a IH]; [reflexivity |].
    simpl. rewrite IH. lia. }
  repeat split.
  - apply H.
  - rewrite H. lia.
  - rewrite !H. simpl. lia.
  - rewrite !H, Happ. simpl. lia.
Qed.

End WordsAndSpaces.

(** ** From the transcription to the analysis *)

Section TranscriptComposition.

Lemma spaceCount_app (a b : string) :
  spaceCount (a ++ b) = (spaceCount a + spaceCount b)%nat.
Proof.
  induction a as [| c a IH]; [reflexivity |]. simpl. rewrite IH. lia.
Qed.

Lemma wordCount_spaceCount (s : string) :
  wordCount s = Z.of_nat (spaceCount s + 1).
Proof. unfold wordCount. rewrite split_space_length. f_equal. lia. Qed.

Lemma wordCount_join (x : string) (rest : list string) :
  wordCount (join " " (x :: rest))
  = fold_right (fun s acc => (wordCount s + acc)%Z) 0%Z (x :: rest).
Proof.
  revert x. induction rest as [| y rest IH]; intro x.
  - simpl. lia.
  - change (join " " (x :: y :: rest))
      with (x ++ " " ++ join " " (y :: rest)).
    change (fold_right (fun s acc => (wordCount s + acc)%Z) 0%Z
                       (x :: y :: rest))
      with (wordCount x
            + fold_right (fun s acc => (wordCount s + acc)%Z) 0%Z
                         (y :: rest))%Z.
    rewrite <- IH. rewrite !wordCount_spaceCount, !spaceCount_app.
    simpl. lia.
Qed.

(** X2.  When the transcription script reports segments, the word count
    that [analyzeRealTranscription] computes on the joined text is the
    sum of the [split(' ').length] counts of the segment texts: a
    segment that is empty, or that starts with a space, still adds a
    word. *)
Theorem whisper_wordCount_sum (data : WhisperData.t)
        (s : Segment.t) (rest : list Segment.t) :
  WhisperData.segments data = Some (s :: rest) ->
  wordCount (Transcript.text (whisperTranscript data))
  = fold_right (fun seg acc => (wordCount (Segment.text seg) + acc)%Z) 0%Z
               (s :: rest)
  /\ (Z.of_nat (List.length (s :: rest))
      <= wordCount (Transcript.text (whisperTranscript data)))%Z.
Proof.
  intro H. unfold whisperTranscript. rewrite H. cbn [Transcript.text].
  cbn [map]. rewrite wordCount_join.
  assert (E : forall l : list Segment.t,
             fold_right (fun x acc => (wordCount x + acc)%Z) 0%Z
                        (map Segment.text l)
             = fold_right
                 (fun seg acc => (wordCount (Segment.text seg) + acc)%Z)
                 0%Z l).
  { induction l as [| a l IH]; [reflexivity |]. simpl. now rewrite IH. }
  change (Segment.text s :: map Segment.text rest)
    with (map Segment.text (s :: rest)).
  rewrite E. split; [reflexivity |].
  generalize (s :: rest). intro l.
  induction l as [| a l IH]; [simpl; lia |].
  cbn [fold_right List.length].
  pose proof (wordCount_spaceCount (Segment.text a)). lia.
Qed.

Lemma whisper_wordCount_sum_witness :
  WhisperData.segments
    (WhisperData.mk (Some [Segment.mk 0 2 " Hello there"; Segment.mk 2 3 ""])
                    None None)
  = Some [Segment.mk 0 2 " Hello there"; Segment.mk 2 3 ""]
  /\ wordCount
       (Transcript.text
          (whisperTranscript
             (WhisperData.mk
                (Some [Segment.mk 0 2 " Hello there"; Segment.mk 2 3 ""])
                None None)))
     = fold_right (fun seg acc => (wordCount (Segment.text seg) + acc)%Z) 0%Z
                  [Segment.mk 0 2 " Hello there"; Segment.mk 2 3 ""]
  /\ (Z.of_nat (List.length [Segment.mk 0 2 " Hello there"; Segment.mk 2 3 ""])
      <= wordCount
           (Transcript.text
              (whisperTranscript
                 (WhisperData.mk
                    (Some [Segment.mk 0 2 " Hello there"; Segment.mk 2 3 ""])
                    None None))))%Z.
Proof.
  split; [reflexivity |].
  apply (whisper_wordCount_sum
           (WhisperData.mk
              (Some [Segment.mk 0 2 " Hello there"; Segment.mk 2 3 ""])
              None None)
           (Segment.mk 0 2 " Hello there") [Segment.mk 2 3 ""]).
  reflexivity.
Defined.

(** X3.  An array of segments that is present but empty is truthy: the
    text reported beside it is ignored, the transcript is empty, and
    [analyzeRealTranscription] answers with its no-speech result
    whatever that text and the field are. *)
Theorem whisper_empty_segments_hide_text (data : WhisperData.t)
        (field : string) :
  WhisperData.segments data = Some [] ->
  Transcript.text (whisperTranscript data) = ""
  /\ ServerJs.analyzeRealTranscription (whisperTranscript data) field
     = Normal ServerJs.noSpeech.
Proof.
  intro H. unfold whisperTranscript. rewrite H. split; reflexivity.
Qed.

Lemma whisper_empty_segments_hide_text_witness :
  WhisperData.segments
    (WhisperData.mk (Some []) (Some plainText) (Some 12)) = Some []
  /\ Transcript.text
       (whisperTranscript
          (WhisperData.mk (Some []) (Some plainText) (Some 12))) = ""
  /\ ServerJs.analyzeRealTranscription
       (whisperTranscript
          (WhisperData.mk (Some []) (Some plainText) (Some 12))) "java"
     = Normal ServerJs.noSpeech.
Proof.
  split; [reflexivity |].
  apply (whisper_empty_segments_hide_text
           (WhisperData.mk (Some []) (Some plainText) (Some 12)) "java").
  reflexivity.
Defined.

(** X4.  [findFillerTimestamp] of analyze.js and [findTimestampForIssue]
    of server.js return the same timestamp on every list of segments:
    the first never throws, and the extra fallbacks of the second are
    never taken. *)
Theorem timestamp_helpers_agree (segments : option (list Segment.t))
        (n : Z) :
  AnalyzeJs.findFillerTimestamp segments n
  = Normal (ServerJs.findTimestampForIssue segments n).
Proof.
  unfold AnalyzeJs.findFillerTimestamp, ServerJs.findTimestampForIssue.
  destruct segments as [segs |]; [| reflexivity].
  destruct (Z.eqb_spec (Z.of_nat (List.length segs)) 0) as [E | N];
    [reflexivity |].
  cbv zeta.
  assert (Hlen : (0 < List.length segs)%nat) by lia.
  pose proof (midPoint_in_range _ Hlen) as Hmid.
  apply nth_error_Some in Hmid.
  destruct (nth_error segs _) as [seg |]; [reflexivity | congruence].
Qed.





Example utterance_timestamp_sample :
  formatStart
    (Segment.start (utteranceSegment (Utterance.mk 125999 130000 "so")))
  = "2:05".
Proof. reflexivity. Qed.

End TranscriptComposition.

(** ** Tips, and the rating as a function of the counts *)

Section TipsAndRating.

(** X6.  [analyzeRealTranscription] builds six tips and returns the
    first five: on a transcript of at least 20 words its result never
    contains the tip on filler words, whereas [analyzeRealSpeech]
    returns that tip in fifth place. *)
Theorem filler_tip_dropped (t : Transcript.t) (field : string) :
  (20 <= wordCount (Transcript.text t))%Z ->
  exists r r',
    AnalyzeJs.analyzeRealSpeech t field = Normal r
    /\ ServerJs.analyzeRealTranscription t field = Normal r'
    /\ List.length (tips r) = 5%nat
    /\ (nth_error (tips r) 4 = Some "Clear, fluent speech patterns"
        \/ nth_error (tips r) 4
           = Some "Practice reducing filler words for more professional delivery")
    /\ List.length (tips r') = 5%nat
    /\ ~ In "Clear, fluent speech patterns detected" (tips r')
    /\ ~ In "Practice reducing filler words for more professional delivery"
          (tips r').
Proof.
  intro H.
  unfold AnalyzeJs.analyzeRealSpeech, ServerJs.analyzeRealTranscription.
  rewrite orEmpty_id. fold (wordCount (Transcript.text t)).
  destruct (Z.ltb_spec (wordCount (Transcript.text t)) 5) as [? | _];
    [lia |].
  destruct (Z.ltb_spec (wordCount (Transcript.text t)) 20) as [? | _];
    [lia |].
  cbv zeta.
  destruct (findFillerTimestamp_total (Transcript.segments t)
              (Regex.countMatches Patterns.fillerWords (Transcript.text t)))
    as [ts Ets].
  rewrite Ets.
  destruct (JsNumber.gtQ _ _); cbn [bind];
    (do 2 eexists; split; [reflexivity |]; split; [reflexivity |];
     cbn [tips JsString.slice0 firstn List.length nth_error];
     split; [reflexivity |];
     split; [destruct (JsNumber.ltQ _ _); [now left | now right] |];
     split; [reflexivity |];
     split;
     (cbn [In append];
      destruct (_ >? 3)%Z, (_ >? 2)%Z, (_ >? 0)%Z;
      intros [E | [E | [E | [E | [E | []]]]]]; discriminate E)).
Qed.

Lemma filler_tip_dropped_witness :
  (20 <= wordCount (Transcript.text plainTranscript))%Z
  /\ exists r r',
      AnalyzeJs.analyzeRealSpeech plainTranscript "java" = Normal r
      /\ ServerJs.analyzeRealTranscription plainTranscript "java" = Normal r'
      /\ List.length (tips r) = 5%nat
      /\ (nth_error (tips r) 4 = Some "Clear, fluent speech patterns"
          \/ nth_error (tips r) 4
             = Some "Practice reducing filler words for more professional delivery")
      /\ List.length (tips r') = 5%nat
      /\ ~ In "Clear, fluent speech patterns detected" (tips r')
      /\ ~ In "Practice reducing filler words for more professional delivery"
            (tips r').
Proof.
  split.
  - apply Z.leb_le. reflexivity.
  - apply (filler_tip_dropped plainTranscript "java").
    apply Z.leb_le. reflexivity.
Defined.

Lemma ltQ_lt (a b : Q) : JsNumber.ltQ a b = true <-> a < b.
Proof.
  rewrite ltQ_dec. destruct (Qlt_le_dec a b) as [Hlt | Hle]; split; trivial.
  - discriminate.
  - intro Hlt. exfalso. exact (Qlt_not_le _ _ Hlt Hle).
Qed.

Lemma filler_condition_mono (wc wc' fw fw' : Z) :
  (wc <= wc')%Z -> (fw' <= fw)%Z ->
  JsNumber.ltQ (inject_Z fw) (inject_Z wc / 20) = true ->
  JsNumber.ltQ (inject_Z fw') (inject_Z wc' / 20) = true.
Proof.
  intros Hwc Hfw H. apply ltQ_lt in H. apply ltQ_lt.
  apply Qle_lt_trans with (inject_Z fw); [now rewrite <- Zle_Qle |].
  apply Qlt_le_trans with (inject_Z wc / 20); [exact H |].
  apply Qmult_le_compat_r; [now rewrite <- Zle_Qle | discriminate].
Qed.

(** X7.  The rating of [analyzeRealSpeech] is monotone in its counts:
    with the field and the text fixed, more words, technical terms,
    confidence words, metrics or question words, and fewer filler
    words, never lower it. *)
Theorem rating_monotone_in_counts
        (wc tt cw fw sm qw wc' tt' cw' fw' sm' qw' : Z)
        (field text : string) :
  (wc <= wc')%Z -> (tt <= tt')%Z -> (cw <= cw')%Z -> (fw' <= fw)%Z ->
  (sm <= sm')%Z -> (qw <= qw')%Z ->
  AnalyzeJs.computeRating wc tt cw fw sm qw field text
  <= AnalyzeJs.computeRating wc' tt' cw' fw' sm' qw' field text.
Proof.
  intros Hwc Htt Hcw Hfw Hsm Hqw.
  unfold AnalyzeJs.computeRating. cbv zeta.
  apply clampRound_mono.
  repeat (apply plusIf_mono;
          [first [ apply (filler_condition_mono _ _ _ _ Hwc Hfw)
                 | let Hc := fresh "Hc" in
                   intro Hc; try exact Hc;
                   rewrite ?andb_true_iff, ?Z.gtb_lt in *; intuition lia ]
          | discriminate |]).
  apply Qle_refl.
Qed.

Lemma rating_monotone_in_counts_witness :
  (30 <= 60)%Z /\ (1 <= 3)%Z /\ (0 <= 5)%Z /\ (1 <= 4)%Z /\ (0 <= 1)%Z
  /\ (0 <= 0)%Z
  /\ AnalyzeJs.computeRating 30 1 0 4 0 0 "senior java" "java"
     <= AnalyzeJs.computeRating 60 3 5 1 1 0 "senior java" "java".
Proof.
  repeat (split; [lia |]).
  apply (rating_monotone_in_counts 30 1 0 4 0 0 60 3 5 1 1 0
                                   "senior java" "java"); lia.
Defined.

(** X8.  [analyzeTranscription] returns exactly four tips and at most
    three mistakes; its rating is 0 below 5 words (its own count), 2
    below 20, and otherwise between 5 and 8.5. *)
Theorem analyzeTranscription_bounds (t : Transcript.t) (field : string) :
  List.length (tips (ServerJs.analyzeTranscription t field)) = 4%nat
  /\ (List.length (mistakes (ServerJs.analyzeTranscription t field)) <= 3)%nat
  /\ (((ServerJs.wordCountOf (Transcript.text t) < 5)%Z
       /\ rating (ServerJs.analyzeTranscription t field) = 0)
      \/ ((5 <= ServerJs.wordCountOf (Transcript.text t) < 20)%Z
          /\ rating (ServerJs.analyzeTranscription t field) = 2)
      \/ ((20 <= ServerJs.wordCountOf (Transcript.text t))%Z
          /\ 5 <= rating (ServerJs.analyzeTranscription t field)
          /\ rating (ServerJs.analyzeTranscription t field) <= 17 # 2)).
Proof.
  unfold ServerJs.analyzeTranscription. rewrite orEmpty_id.
  set (wc := ServerJs.wordCountOf (Transcript.text t)).
  set (tt := Regex.countMatches Patterns.technicalTermsShort
                                (Transcript.text t)).
  set (cw := Regex.countMatches Patterns.confidenceWordsShort
                                (Transcript.text t)).
  set (fw := Regex.countMatches Patterns.fillerWordsShort
                                (Transcript.text t)).
  assert (Hr : 5 <= ServerJs.computeRatingSimple wc tt cw fw
               /\ ServerJs.computeRatingSimple wc tt cw fw <= 17 # 2).
  { unfold ServerJs.computeRatingSimple. cbv zeta.
    change (Qmin 9 (Qmax 1 (inject_Z (JsNumber.Math_round (?r * 2)) / 2)))
      with (clampRound r).
    split.
    - apply Qle_trans with (clampRound 5); [vm_compute; discriminate |].
      apply clampRound_mono.
      repeat (apply plusIf_lower; [discriminate |]). apply Qle_refl.
    - apply Qle_trans with (clampRound (17 # 2));
        [| vm_compute; discriminate].
      apply clampRound_mono.
      destruct (wc >? 50)%Z, (wc >? 100)%Z, (tt >? 2)%Z, (cw >? 2)%Z,
        (JsNumber.ltQ _ _); vm_compute; discriminate. }
  cbv zeta.
  destruct (Z.ltb_spec wc 5) as [H5 | H5].
  { cbn [tips mistakes rating List.length].
    split; [reflexivity |]. split; [lia |]. left. now split. }
  destruct (Z.ltb_spec wc 20) as [H20 | H20].
  { cbn [tips mistakes rating List.length].
    split; [reflexivity |]. split; [lia |]. right. left. now split. }
  cbn [tips mistakes rating List.length].
  split; [reflexivity |]. split; [apply firstn_bound |].
  right. right. split; [exact H20 | exact Hr].
Qed.

End TipsAndRating.

(** ** Accounts *)

Section Accounts.

Import Auth.

Lemma get_set_same (users : Users) (k : string) (u : User) :
  get (set users k u) k = Some u.
Proof. unfold get, set. now rewrite String.eqb_refl. Qed.

Lemma get_set_other (users : Users) (k k' : string) (u : User) :
  k' <> k -> get (set users k u) k' = get users k'.
Proof.
  intro H. unfold get, set.
  destruct (String.eqb_spec k' k); [contradiction | reflexivity].
Qed.

Lemma differs_false (stored : string) (given : option string) :
  differs stored given = false <-> given = Some stored.
Proof.
  destruct given as [p |]; simpl.
  - rewrite negb_false_iff. split.
    + intro H. apply String.eqb_eq in H. now subst.
    + intros [= ->]. apply String.eqb_refl.
  - split; discriminate.
Qed.

(** X9.  A registration with three non-empty fields under an email not
    yet stored succeeds, and a login with the same email and password
    then returns the same user, without the password; any other
    password is refused with status 401. *)
Theorem register_then_login (users : Users) (now : Z) (nowIso : string)
        (n e p : string) (p' : option string) :
  n <> "" -> e <> "" -> p <> "" -> has users e = false ->
  exists users' u,
    register users now nowIso (Some n) (Some e) (Some p) = (users', Ok u)
    /\ u = mkUserResponse now n e nowIso []
    /\ login users' (Some e) (Some p) = Ok u
    /\ (p' <> Some p ->
        login users' (Some e) p' = Failed 401 "Invalid credentials").
Proof.
  intros Hn He Hp Hnew. unfold register.
  destruct n as [| c1 n]; [contradiction |].
  destruct e as [| c2 e]; [contradiction |].
  destruct p as [| c3 p]; [contradiction |].
  cbn [falsy orb valueOf]. rewrite Hnew. cbv zeta.
  do 2 eexists. split; [reflexivity |]. split; [reflexivity |].
  unfold login. rewrite get_set_same. cbn [Auth.password].
  split.
  - cbn [differs]. now rewrite String.eqb_refl.
  - intro Hne. destruct (differs _ p') eqn:E; [reflexivity |].
    apply differs_false in E. contradiction.
Qed.

Lemma register_then_login_witness :
  "Ada" <> "" /\ "ada@lab.io" <> "" /\ "s3cret" <> ""
  /\ has newMap "ada@lab.io" = false
  /\ exists users' u,
      register newMap 1700000000000 "2023-11-14T22:13:20.000Z"
               (Some "Ada") (Some "ada@lab.io") (Some "s3cret")
      = (users', Ok u)
      /\ u = mkUserResponse 1700000000000 "Ada" "ada@lab.io"
                            "2023-11-14T22:13:20.000Z" []
      /\ login users' (Some "ada@lab.io") (Some "s3cret") = Ok u
      /\ (Some "guess" <> Some "s3cret" ->
          login users' (Some "ada@lab.io") (Some "guess")
          = Failed 401 "Invalid credentials").
Proof.
  split; [discriminate |]. split; [discriminate |].
  split; [discriminate |]. split; [reflexivity |].
  apply (register_then_login newMap 1700000000000 "2023-11-14T22:13:20.000Z"
                             "Ada" "ada@lab.io" "s3cret" (Some "guess"));
    try discriminate; reflexivity.
Defined.

(** X10.  A registration under an email that is already stored is
    refused with status 400 and leaves the store as it was: the account
    cannot be taken over, and its name and password are not replaced. *)
Theorem register_existing_refused (users : Users) (now : Z)
        (nowIso : string) (name password : option string) (e : string) :
  has users e = true ->
  fst (register users now nowIso name (Some e) password) = users
  /\ exists msg,
      snd (register users now nowIso name (Some e) password)
      = Failed 400 msg.
Proof.
  intro Hhas. unfold register.
  destruct (falsy name || falsy (Some e) || falsy password).
  - split; [reflexivity | eexists; reflexivity].
  - cbn [valueOf]. rewrite Hhas. split; [reflexivity | eexists; reflexivity].
Qed.

Lemma register_existing_refused_witness :
  has (set newMap "ada@lab.io"
              (mkUser 1 "Ada" "ada@lab.io" "s3cret" "2023" []))
         "ada@lab.io" = true
  /\ fst (register
            (set newMap "ada@lab.io"
                 (mkUser 1 "Ada" "ada@lab.io" "s3cret" "2023" []))
            2 "2024" (Some "Eve") (Some "ada@lab.io") (Some "mine"))
     = set newMap "ada@lab.io" (mkUser 1 "Ada" "ada@lab.io" "s3cret" "2023" [])
  /\ exists msg,
      snd (register
             (set newMap "ada@lab.io"
                  (mkUser 1 "Ada" "ada@lab.io" "s3cret" "2023" []))
             2 "2024" (Some "Eve") (Some "ada@lab.io") (Some "mine"))
      = Failed 400 msg.
Proof.
  split; [reflexivity |].
  apply (register_existing_refused
           (set newMap "ada@lab.io"
                (mkUser 1 "Ada" "ada@lab.io" "s3cret" "2023" []))
           2 "2024" (Some "Eve") (Some "mine") "ada@lab.io").
  reflexivity.
Defined.

Lemma handle_keeps (users : Users) (req : Request) (e : string) (u : User) :
  get users e = Some u -> get (fst (handle users req)) e = Some u.
Proof.
  intro H. destruct req as [now nowIso n em p | em p]; [| exact H].
  cbn [handle]. unfold register.
  destruct (falsy n || falsy em || falsy p); [exact H |].
  destruct (has users (valueOf em)) eqn:Hhas; [exact H |].
  cbv zeta. cbn [fst].
  destruct (String.eqb_spec e (valueOf em)) as [-> | Hne].
  - unfold has in Hhas. unfold get in H. rewrite H in Hhas. discriminate.
  - now rewrite get_set_other.
Qed.

Lemma serve_keeps (reqs : list Request) (users : Users) (e : string)
      (u : User) :
  get users e = Some u -> get (serve users reqs) e = Some u.
Proof.
  revert users. induction reqs as [| req rest IH]; intros users H.
  - exact H.
  - cbn [serve]. apply IH. now apply handle_keeps.
Qed.

(** X11.  A stored user is never changed or removed: after any sequence
    of registrations and logins, a login under its email succeeds
    exactly with the password it registered with. *)
Theorem first_registration_wins (users : Users) (reqs : list Request)
        (e : string) (u : User) (p : option string) :
  get users e = Some u ->
  get (serve users reqs) e = Some u
  /\ (login (serve users reqs) (Some e) p = Ok (withoutPassword u)
      <-> p = Some (password u)).
Proof.
  intro H. pose proof (serve_keeps reqs users e u H) as Hk.
  split; [exact Hk |].
  unfold login. rewrite Hk.
  destruct (differs (password u) p) eqn:E.
  - split; [discriminate |].
    intro Hp. apply differs_false in Hp. congruence.
  - split; [intros _; now apply differs_false | reflexivity].
Qed.

Lemma first_registration_wins_witness :
  get (set newMap "ada@lab.io"
           (mkUser 1 "Ada" "ada@lab.io" "s3cret" "2023" []))
      "ada@lab.io"
  = Some (mkUser 1 "Ada" "ada@lab.io" "s3cret" "2023" [])
  /\ get (serve
            (set newMap "ada@lab.io"
                 (mkUser 1 "Ada" "ada@lab.io" "s3cret" "2023" []))
            [Register 2 "2024" (Some "Eve") (Some "ada@lab.io") (Some "mine");
             Login (Some "ada@lab.io") (Some "mine")])
         "ada@lab.io"
     = Some (mkUser 1 "Ada" "ada@lab.io" "s3cret" "2023" [])
  /\ (login
        (serve
           (set newMap "ada@lab.io"
                (mkUser 1 "Ada" "ada@lab.io" "s3cret" "2023" []))
           [Register 2 "2024" (Some "Eve") (Some "ada@lab.io") (Some "mine");
            Login (Some "ada@lab.io") (Some "mine")])
        (Some "ada@lab.io") (Some "mine")
      = Ok (withoutPassword (mkUser 1 "Ada" "ada@lab.io" "s3cret" "2023" []))
      <-> Some "mine"
          = Some (password (mkUser 1 "Ada" "ada@lab.io" "s3cret" "2023" []))).
Proof.
  split; [reflexivity |].
  apply (first_registration_wins
           (set newMap "ada@lab.io"
                (mkUser 1 "Ada" "ada@lab.io" "s3cret" "2023" []))
           [Register 2 "2024" (Some "Eve") (Some "ada@lab.io") (Some "mine");
            Login (Some "ada@lab.io") (Some "mine")]
           "ada@lab.io" (mkUser 1 "Ada" "ada@lab.io" "s3cret" "2023" [])
           (Some "mine")).
  reflexivity.
Defined.

Lemma falsy_false (x : option string) :
  falsy x = false -> valueOf x <> "" /\ x = Some (valueOf x).
Proof.
  destruct x as [[| c s] |]; try discriminate. intros _.
  split; [discriminate | reflexivity].
Qed.

Lemma handle_sound (users : Users) (req : Request) :
  Sound users -> Sound (fst (handle users req)).
Proof.
  intro H. destruct req as [now nowIso n em p | em p]; [| exact H].
  cbn [handle]. unfold register.
  destruct (falsy n) eqn:En; [exact H |].
  destruct (falsy em) eqn:Ee; [exact H |].
  destruct (falsy p) eqn:Ep; [exact H |].
  cbn [orb]. destruct (has users (valueOf em)); [exact H |].
  cbv zeta. cbn [fst]. intros e u Hget.
  destruct (String.eqb_spec e (valueOf em)) as [-> | Hne].
  - rewrite get_set_same in Hget. injection Hget as <-.
    cbn [email name password sessions].
    apply falsy_false in En, Ee, Ep. tauto.
  - rewrite get_set_other in Hget by assumption. now apply H.
Qed.

(** X12.  Starting from the empty map, after any sequence of requests
    every stored user is stored under its own email and has a non-empty
    name, email and password and no sessions; so a login without
    password, or with the empty password, is always refused. *)
Theorem reachable_store_sound (reqs : list Request) :
  Sound (serve newMap reqs)
  /\ forall email,
      login (serve newMap reqs) email None
      = Failed 401 "Invalid credentials"
      /\ login (serve newMap reqs) email (Some "")
         = Failed 401 "Invalid credentials".
Proof.
  assert (S : forall users, Sound users -> Sound (serve users reqs)).
  { induction reqs as [| req rest IH]; intros users H; [exact H |].
    cbn [serve]. apply IH. now apply handle_sound. }
  assert (S0 : Sound (serve newMap reqs)).
  { apply S. intros e u H. discriminate H. }
  split; [exact S0 |].
  intros [e |]; [| split; reflexivity].
  unfold login. destruct (get (serve newMap reqs) e) as [u |] eqn:E;
    [| split; reflexivity].
  destruct (S0 e u E) as (_ & _ & _ & Hp & _).
  split; [reflexivity |].
  cbn [differs]. destruct (String.eqb_spec (password u) ""); [contradiction |].
  reflexivity.
Qed.

End Accounts.

(** ** Interview questions *)

Section InterviewQuestions.

Import Questions.

Lemma requestedCount_range (n : Number) :
  1 <= requestedCount n /\ requestedCount n <= 20.
Proof.
  assert (H : forall q, 1 <= Qmax 1 (Qmin 20 q) /\ Qmax 1 (Qmin 20 q) <= 20).
  { intro q. split; [apply Q.le_max_l |].
    apply Q.max_lub; [discriminate | apply Q.le_min_l]. }
  destruct n as [| q | [|]]; cbn [requestedCount].
  - apply H.
  - destruct (Qeq_bool q 0); apply H.
  - split; [apply Qle_refl | discriminate].
  - split; vm_compute; discriminate.
Qed.

(** X13.  The number of questions asked for is always between 1 and 20:
    a missing, non-numeric or zero count gives 7, a count above 20
    gives 20, and a negative one gives 1. *)
Theorem requestedCount_clamped (n : Number) :
  1 <= requestedCount n /\ requestedCount n <= 20
  /\ requestedCount NaN == 7
  /\ requestedCount (Finite 0) == 7
  /\ (forall q, 20 <= q -> requestedCount (Finite q) == 20)
  /\ (forall q, q < 0 -> requestedCount (Finite q) == 1).
Proof.
  split; [apply requestedCount_range |].
  split; [apply requestedCount_range |].
  split; [reflexivity |]. split; [reflexivity |]. split.
  - intros q Hq. cbn [requestedCount].
    destruct (Qeq_bool q 0) eqn:E.
    + apply Qeq_bool_iff in E. rewrite E in Hq.
      unfold Qle in Hq. simpl in Hq. lia.
    + rewrite (Q.min_l 20 q Hq). reflexivity.
  - intros q Hq. cbn [requestedCount].
    destruct (Qeq_bool q 0) eqn:E.
    + apply Qeq_bool_iff in E. rewrite E in Hq.
      unfold Qlt in Hq. simpl in Hq. lia.
    + apply Q.max_l. apply Qle_trans with q.
      * apply Q.le_min_r.
      * apply Qlt_le_weak. eapply Qlt_le_trans; [exact Hq | discriminate].
Qed.

Lemma trunc_of_count (q : Q) :
  1 <= q -> q <= 20 -> (1 <= JsNumber.trunc q <= 20)%Z.
Proof.
  intros Hlo Hhi. rewrite trunc_nonneg.
  - split.
    + change 1%Z with (Qfloor 1). now apply Qfloor_resp_le.
    + change 20%Z with (Qfloor 20). now apply Qfloor_resp_le.
  - eapply Qle_trans; [| exact Hlo]. discriminate.
Qed.

Lemma sliceTo_length {A : Type} (q : Q) (l : list A) :
  1 <= q -> q <= 20 ->
  List.length (sliceTo q l)
  = Nat.min (Z.to_nat (JsNumber.trunc q)) (List.length l).
Proof.
  intros Hlo Hhi. pose proof (trunc_of_count q Hlo Hhi) as Ht.
  unfold sliceTo. cbv zeta.
  destruct (Z.ltb_spec (JsNumber.trunc q) 0) as [? | _]; [lia |].
  apply length_firstn.
Qed.

Lemma sliceTo_firstn {A : Type} (q : Q) (l : list A) :
  1 <= q -> q <= 20 ->
  sliceTo q l = firstn (Z.to_nat (JsNumber.trunc q)) l.
Proof.
  intros Hlo Hhi. pose proof (trunc_of_count q Hlo Hhi) as Ht.
  unfold sliceTo. cbv zeta.
  destruct (Z.ltb_spec (JsNumber.trunc q) 0) as [? | _]; [lia | reflexivity].
Qed.

Lemma NoDup_slice {A : Type} (n : nat) (l : list A) :
  NoDup l -> NoDup (firstn n l).
Proof.
  intro H. rewrite <- (firstn_skipn n l) in H.
  now apply NoDup_app_remove_r in H.
Qed.

Lemma slice_incl {A : Type} (n : nat) (l : list A) : incl (firstn n l) l.
Proof.
  intros x Hx. rewrite <- (firstn_skipn n l). apply in_or_app. now left.
Qed.

Lemma member_In (l : list string) (x : string) :
  member l x = true <-> In x l.
Proof.
  unfold member. rewrite existsb_exists. split.
  - intros (y & Hy & E). apply String.eqb_eq in E. now subst.
  - intro H. exists x. split; [exact H | apply String.eqb_refl].
Qed.

Lemma endsWith_app (s : string) (c : ascii) :
  endsWith (s ++ String c "") c = true.
Proof.
  induction s as [| a s IH]; simpl; [apply Ascii.eqb_refl |].
  destruct (s ++ String c "") eqn:E; [| exact IH].
  destruct s; discriminate E.
Qed.

Lemma singleSpaced_app_mark (s : string) (b : bool) :
  singleSpaced b s = true -> singleSpaced b (s ++ "?") = true.
Proof.
  revert b. induction s as [| c s IH]; intros b H; [reflexivity |].
  simpl in *. destruct (Regex.space c).
  - apply andb_true_iff in H. destruct H as [H1 H2].
    rewrite H1. simpl. now apply IH.
  - now apply IH.
Qed.

Lemma collapseFrom_singleSpaced (s : string) (b : bool) :
  singleSpaced b (collapseFrom b s) = true.
Proof.
  revert b. induction s as [| c s IH]; intro b; [reflexivity |].
  simpl. destruct (Regex.space c) eqn:E.
  - destruct b; [apply IH |]. simpl. apply IH.
  - simpl. rewrite E. apply IH.
Qed.

Lemma trimEnd_head (s : string) :
  startsWithDigit (trimEnd s) = true -> startsWithDigit s = true.
Proof.
  destruct s as [| c rest]; [trivial |]. simpl.
  destruct (trimEnd rest); [| trivial].
  destruct (Regex.space c); [discriminate | trivial].
Qed.

Lemma matchNumbered_digit (line : string) (g : string) :
  matchNumbered line = Some g -> startsWithDigit line = true.
Proof.
  unfold matchNumbered. cbn [Regex.run]. unfold Regex.matchPlus.
  destruct line as [| c rest]; [discriminate |].
  cbn [startsWithDigit]. destruct (Regex.digit c); [trivial | discriminate].
Qed.

Lemma questionOfLine_wellFormed (line q : string) :
  questionOfLine line = Some q ->
  WellFormedQuestion q /\ startsWithDigit (trim line) = true.
Proof.
  unfold questionOfLine. cbv zeta.
  destruct (matchNumbered (trim line)) as [g |] eqn:Eg; [| discriminate].
  destruct (Nat.ltb 10 (String.length g)); [| discriminate].
  intros [= <-]. split; [| exact (matchNumbered_digit _ _ Eg)].
  unfold WellFormedQuestion, collapseSpaces.
  destruct (endsWith (collapseFrom false (stripQuotes (trim g))) "?") eqn:E.
  - split; [exact E | apply collapseFrom_singleSpaced].
  - split; [apply (endsWith_app _ "?") |].
    apply singleSpaced_app_mark, collapseFrom_singleSpaced.
Qed.

Lemma parse_invariant (lines : list string) (acc : list string) :
  NoDup acc -> Forall WellFormedQuestion acc ->
  let result :=
    fold_left
      (fun questions line =>
         match questionOfLine line with
         | Some question =>
             if member questions question then questions
             else push questions question
         | None => questions
         end)
      lines acc in
  NoDup result /\ Forall WellFormedQuestion result
  /\ (List.length result <= List.length acc + List.length lines)%nat
  /\ (Forall (fun l => startsWithDigit (trim l) = false) lines ->
      result = acc).
Proof.
  revert acc. induction lines as [| line rest IH]; intros acc Hnd Hwf.
  - cbv zeta. cbn [fold_left List.length]. repeat split; trivial. lia.
  - cbv zeta. cbn [fold_left List.length].
    destruct (questionOfLine line) as [q |] eqn:Eq.
    + destruct (questionOfLine_wellFormed _ _ Eq) as [Hq Hd].
      destruct (member acc q) eqn:Em.
      * destruct (IH acc Hnd Hwf) as (H1 & H2 & H3 & H4).
        repeat split; trivial; [lia |].
        intro Hall. inversion Hall; subst. congruence.
      * assert (Hnd' : NoDup (push acc q)).
        { unfold push. apply NoDup_app.
          - exact Hnd.
          - constructor; [intros [] | constructor].
          - intros x Hx [<- | []].
            apply member_In in Hx. congruence. }
        assert (Hwf' : Forall WellFormedQuestion (push acc q)).
        { unfold push. apply Forall_app. split; [exact Hwf |].
          constructor; [exact Hq | constructor]. }
        destruct (IH (push acc q) Hnd' Hwf') as (H1 & H2 & H3 & H4).
        repeat split; trivial.
        -- assert (El : List.length (push acc q) = S (List.length acc))
             by (unfold push; rewrite length_app; simpl; lia).
           rewrite El in H3. lia.
        -- intro Hall. inversion Hall; subst. congruence.
    + destruct (IH acc Hnd Hwf) as (H1 & H2 & H3 & H4).
      repeat split; trivial; [lia |].
      intro Hall. inversion Hall; subst. now apply H4.
Qed.

(** X14.  Every question parsed from a response ends with a question
    mark and has its whitespace normalised to single spaces, no
    question occurs twice, there are no more questions than lines, and
    only lines that start, after trimming, with a digit give one. *)
Theorem parsed_questions_wellformed (responseText : string) :
  NoDup (parseQuestions responseText)
  /\ Forall (fun q => endsWith q "?" = true /\ singleSpaced false q = true)
            (parseQuestions responseText)
  /\ (List.length (parseQuestions responseText)
      <= List.length (JsString.split "010" (trim responseText)))%nat
  /\ (Forall (fun l => startsWithDigit (trim l) = false)
             (JsString.split "010" (trim responseText)) ->
      parseQuestions responseText = []).
Proof.
  unfold parseQuestions. cbv zeta.
  destruct (parse_invariant (JsString.split "010" (trim responseText)) []
                            (NoDup_nil _) (Forall_nil _))
    as (H1 & H2 & H3 & H4).
  repeat split; trivial.
Qed.

Lemma selectedTemplates_shape (field : string) :
  NoDup (selectedTemplates field)
  /\ List.length (selectedTemplates field) = 5%nat.
Proof.
  unfold selectedTemplates. cbv zeta.
  destruct (JsString.includes _ "java");
    [| destruct (JsString.includes _ "intern")];
    (split; [| reflexivity]);
    repeat (constructor; [simpl; intuition discriminate |]); constructor.
Qed.


Lemma enough_length (questions : list string) (count : Q) :
  1 <= count -> enough questions count = true ->
  (1 <= List.length questions)%nat.
Proof.
  intros Hc H. unfold enough in H. apply Qle_bool_iff in H.
  assert (Hpos : 0 < inject_Z (Z.of_nat (List.length questions))).
  { eapply Qlt_le_trans; [| exact H].
    destruct (Q.min_spec 3 count) as [[_ E] | [_ E]]; rewrite E.
    - reflexivity.
    - eapply Qlt_le_trans; [| exact Hc]. reflexivity. }
  change 0 with (inject_Z 0) in Hpos. rewrite <- Zlt_Qlt in Hpos. lia.
Qed.

Lemma handler_reply (templates : string -> list string) (n : nat)
      (shuffle : list string -> list string)
      (field : option string) (count : Number) (response : option string) :
  (forall f, NoDup (templates f) /\ List.length (templates f) = S n) ->
  (forall l, Permutation l (shuffle l)) ->
  match questionsHandler templates shuffle field count response with
  | BadRequest _ => trim (stringOr field "") = ""
  | Questions qs ai _ =>
      trim (stringOr field "") <> ""
      /\ (1 <= List.length qs <= 20)%nat
      /\ (Z.of_nat (List.length qs) <= JsNumber.trunc (requestedCount count))%Z
      /\ NoDup qs
      /\ (ai = true -> Forall WellFormedQuestion qs)
      /\ (ai = false ->
          List.length qs
          = Nat.min (Z.to_nat (JsNumber.trunc (requestedCount count))) (S n)
          /\ incl qs (templates (trim (stringOr field ""))))
  end.
Proof.
  intros Ht Hs. unfold questionsHandler. cbv zeta.
  destruct (requestedCount_range count) as [Hlo Hhi].
  pose proof (trunc_of_count _ Hlo Hhi) as Htr.
  set (q := requestedCount count) in *.
  destruct (trim (stringOr field "")) as [| c f] eqn:Ef; [reflexivity |].
  assert (Hfb : (String c f <> ""
                 /\ (1 <= List.length (sliceTo q (shuffle (templates (String c f)))) <= 20)%nat
                 /\ (Z.of_nat (List.length (sliceTo q (shuffle (templates (String c f)))))
                     <= JsNumber.trunc q)%Z
                 /\ NoDup (sliceTo q (shuffle (templates (String c f))))
                 /\ (false = true ->
                     Forall WellFormedQuestion
                            (sliceTo q (shuffle (templates (String c f)))))
                 /\ (false = false ->
                     List.length (sliceTo q (shuffle (templates (String c f))))
                     = Nat.min (Z.to_nat (JsNumber.trunc q)) (S n)
                     /\ incl (sliceTo q (shuffle (templates (String c f))))
                             (templates (String c f))))).
  { destruct (Ht (String c f)) as [Hnd Hlen].
    pose proof (Hs (templates (String c f))) as Hp.
    assert (Hl : List.length (shuffle (templates (String c f))) = S n)
      by (rewrite <- (Permutation_length Hp); exact Hlen).
    rewrite (sliceTo_length _ _ Hlo Hhi), (sliceTo_firstn _ _ Hlo Hhi), Hl.
    split; [discriminate |]. split; [lia |]. split; [lia |].
    split; [apply NoDup_slice; eapply Permutation_NoDup; eassumption |].
    split; [discriminate |]. intros _. split; [reflexivity |].
    intros x Hx. apply slice_incl in Hx.
    eapply Permutation_in; [apply Permutation_sym; exact Hp | exact Hx]. }
  destruct response as [[| c' s'] |]; try exact Hfb.
  destruct (enough (parseQuestions (String c' s')) q) eqn:Een;
    [| exact Hfb].
  destruct (parsed_questions_wellformed (String c' s'))
    as (Hnd & Hwf & _ & _).
  pose proof (enough_length _ _ Hlo Een) as Hge.
  rewrite (sliceTo_firstn _ _ Hlo Hhi).
  split; [discriminate |]. rewrite length_firstn.
  split; [lia |]. split; [lia |].
  split; [now apply NoDup_slice |].
  split; [| discriminate]. intros _.
  rewrite Forall_forall in *. intros x Hx. apply Hwf.
  now apply slice_incl in Hx.
Qed.



(** X16.  Without a usable response the first copy answers from one
    bucket of five templates, so it returns five questions at most even
    when twenty are asked for; a field that mentions java gets the java
    bucket, also when it mentions intern as well. *)
Theorem fallback_bucket (shuffle : list string -> list string)
        (field : string) (count : Number) :
  (forall l, Permutation l (shuffle l)) ->
  trim field <> "" ->
  exists qs,
    questionsFirst shuffle (Some field) count None
    = Questions qs false "fallback"
    /\ List.length qs
       = Nat.min (Z.to_nat (JsNumber.trunc (requestedCount count))) 5
    /\ (List.length qs <= 5)%nat
    /\ incl qs (selectedTemplates (trim field))
    /\ (JsString.includes (JsString.toLowerCase (trim field)) "java" = true ->
        incl qs javaTemplates).
Proof.
  intros Hs Hf.
  pose proof (handler_reply selectedTemplates 4 shuffle (Some field) count
                            None selectedTemplates_shape Hs) as H.
  unfold questionsFirst.
  assert (Ef : stringOr (Some field) "" = field) by now destruct field.
  unfold questionsHandler in *. cbv zeta in *. rewrite !Ef in *.
  destruct (trim field) as [| c f] eqn:Et; [contradiction |].
  cbv beta iota in H. cbv beta iota.
  destruct H as (_ & _ & _ & _ & _ & H). destruct (H eq_refl) as [Hl Hi].
  eexists. split; [reflexivity |]. split; [exact Hl |].
  split; [rewrite Hl; apply Nat.le_min_r |]. split; [exact Hi |].
  intro Hj. unfold selectedTemplates in Hi |- *. cbv zeta in Hi |- *.
  rewrite Hj in Hi |- *. exact Hi.
Qed.

Lemma fallback_bucket_witness :
  (forall l : list string, Permutation l (rev l))
  /\ trim "Java intern" <> ""
  /\ exists qs,
      questionsFirst (@rev string) (Some "Java intern") (Finite 20) None
      = Questions qs false "fallback"
      /\ List.length qs
         = Nat.min (Z.to_nat (JsNumber.trunc (requestedCount (Finite 20)))) 5
      /\ (List.length qs <= 5)%nat
      /\ incl qs (selectedTemplates (trim "Java intern"))
      /\ (JsString.includes (JsString.toLowerCase (trim "Java intern")) "java"
          = true ->
          incl qs javaTemplates).
Proof.
  split; [intro l; apply Permutation_rev |].
  split; [discriminate |].
  apply (fallback_bucket (@rev string) "Java intern" (Finite 20)).
  - intro l. apply Permutation_rev.
  - discriminate.
Defined.

End InterviewQuestions.

(** ** The analysis without transcription *)

Section Smart.

Import SmartAnalysis.

Lemma toInt32_range (z : Z) : (- 2 ^ 31 <= toInt32 z < 2 ^ 31)%Z.
Proof.
  unfold toInt32.
  pose proof (Z.mod_pos_bound (z + 2 ^ 31) (2 ^ 32) eq_refl). lia.
Qed.

Lemma toInt32_mod (z : Z) : (toInt32 z mod 2 ^ 32 = z mod 2 ^ 32)%Z.
Proof.
  unfold toInt32. rewrite Zminus_mod_idemp_l. f_equal. lia.
Qed.

Lemma toInt32_congr (a b : Z) :
  (a mod 2 ^ 32 = b mod 2 ^ 32)%Z -> toInt32 a = toInt32 b.
Proof.
  intro H. unfold toInt32. f_equal.
  rewrite <- (Zplus_mod_idemp_l a), <- (Zplus_mod_idemp_l b). now rewrite H.
Qed.

Lemma hashStep_31 (hash : Z) (c : ascii) :
  hashStep hash c = toInt32 (31 * hash + Z.of_nat (JsString.code c)).
Proof.
  unfold hashStep. cbv zeta. apply toInt32_congr.
  rewrite <- Zplus_mod_idemp_l, <- Zminus_mod_idemp_l, toInt32_mod.
  rewrite <- Zmult_mod_idemp_l, toInt32_mod, Zmult_mod_idemp_l.
  rewrite Zminus_mod_idemp_l, Zplus_mod_idemp_l. f_equal. lia.
Qed.

Lemma polynomial31_congr (s : string) (a b : Z) :
  (a mod 2 ^ 32 = b mod 2 ^ 32)%Z ->
  (polynomial31 a s mod 2 ^ 32 = polynomial31 b s mod 2 ^ 32)%Z.
Proof.
  revert a b. induction s as [| c s IH]; intros a b H; [exact H |].
  cbn [polynomial31]. apply IH.
  rewrite <- Zplus_mod_idemp_l, <- Zmult_mod_idemp_r, H.
  now rewrite Zmult_mod_idemp_r, Zplus_mod_idemp_l.
Qed.

Lemma hashFrom_polynomial (s : string) (h : Z) :
  hashFrom (toInt32 h) s = toInt32 (polynomial31 h s).
Proof.
  revert h. induction s as [| c s IH]; intro h; [reflexivity |].
  cbn [hashFrom polynomial31]. rewrite hashStep_31.
  rewrite <- IH. f_equal. apply toInt32_congr.
  rewrite <- Zplus_mod_idemp_l, <- Zmult_mod_idemp_r, toInt32_mod.
  now rewrite Zmult_mod_idemp_r, Zplus_mod_idemp_l.
Qed.

(** X17.  The hash loop computes Java's [String.hashCode]: the
    polynomial in 31 over the characters, wrapped to a signed 32-bit
    integer; so [fileHash] lies between 0 and 2^31, [fileHash % 10]
    between 0 and 9, and it does not depend on the characters through
    anything but that polynomial modulo 2^32. *)
Theorem hash_is_polynomial (hashInput : string) :
  hashFrom 0 hashInput = toInt32 (polynomial31 0 hashInput)
  /\ (- 2 ^ 31 <= hashFrom 0 hashInput < 2 ^ 31)%Z
  /\ (0 <= fileHash hashInput <= 2 ^ 31)%Z
  /\ (0 <= Z.rem (fileHash hashInput) 10 < 10)%Z.
Proof.
  assert (E : hashFrom 0 hashInput = toInt32 (polynomial31 0 hashInput))
    by apply (hashFrom_polynomial hashInput 0).
  pose proof (toInt32_range (polynomial31 0 hashInput)) as R.
  split; [exact E |]. rewrite <- E in R. split; [exact R |].
  unfold fileHash. split; [lia |].
  rewrite Z.rem_mod_nonneg by lia. apply Z.mod_pos_bound. lia.
Qed.

Lemma selectFrom_mod (turns : nat) (i fh : Z) (pool ms : list Mistake.t) :
  (0 <= fh)%Z -> (0 <= i)%Z -> List.length pool = 5%nat ->
  selectFrom turns i fh pool ms = selectFrom turns i (fh mod 5) pool ms.
Proof.
  intros Hfh. revert i ms. induction turns as [| t IH]; intros i ms Hi Hp;
    [reflexivity |].
  cbn [selectFrom]. rewrite Hp.
  assert (E : Z.rem (fh + i * 3) (Z.of_nat 5)
              = Z.rem (fh mod 5 + i * 3) (Z.of_nat 5)).
  { pose proof (Z.mod_pos_bound fh 5 eq_refl).
    rewrite !Z.rem_mod_nonneg by lia. change (Z.of_nat 5) with 5%Z.
    now rewrite Zplus_mod_idemp_l. }
  rewrite E.
  destruct (Z.of_nat (List.length ms) <? 3)%Z; [| reflexivity].
  cbv zeta.
  destruct (if (Z.rem (fh mod 5 + i * 3) (Z.of_nat 5) <? 0)%Z
            then None
            else nth_error pool
                           (Z.to_nat (Z.rem (fh mod 5 + i * 3) (Z.of_nat 5))))
    as [m |]; [| reflexivity].
  apply IH; [lia | exact Hp].
Qed.

Ltac distinct_texts :=
  repeat (constructor;
          [cbn [In map Mistake.text append];
           let E := fresh "E" in
           intro E;
           repeat (destruct E as [E | E]; [discriminate E |]);
           exact E |]);
  constructor.

(** X18.  The choice of the mistakes never throws and returns at least
    one and at most three mistakes with pairwise different texts,
    whatever the duration, the rating, the hashed string and the
    field. *)
Theorem selected_mistakes_distinct
        (estimatedDurationSeconds rating : float)
        (hashInput field : string) :
  exists mistakes,
    selectMistakes estimatedDurationSeconds rating (fileHash hashInput) field
    = Normal mistakes
    /\ (1 <= List.length mistakes <= 3)%nat
    /\ NoDup (map Mistake.text mistakes).
Proof.
  destruct (hash_is_polynomial hashInput) as (_ & _ & [Hfh _] & _).
  unfold selectMistakes. cbv zeta.
  rewrite selectFrom_mod by (trivial; lia).
  pose proof (Z.mod_pos_bound (fileHash hashInput) 5 eq_refl) as Hm.
  set (h := (fileHash hashInput mod 5)%Z) in *.
  assert (Hh : h = 0%Z \/ h = 1%Z \/ h = 2%Z \/ h = 3%Z \/ h = 4%Z) by lia.
  clearbody h.
  destruct (PrimFloat.ltb estimatedDurationSeconds 45),
    (PrimFloat.ltb 240 estimatedDurationSeconds),
    (PrimFloat.leb 8 rating), (PrimFloat.leb 6.5 rating);
    destruct Hh as [-> | [-> | [-> | [-> | ->]]]];
    (eexists; split; [reflexivity |]; split; [cbn; lia | distinct_texts]).
Qed.

End Smart.

(** ** The estimated duration *)

Section Duration.

Import SmartAnalysis.

Ltac compare_cases :=
  repeat match goal with
         | H : context [(?a ?= ?b)%Z] |- _ =>
             destruct (Z.compare_spec a b)
         | |- context [(?a ?= ?b)%Z] =>
             destruct (Z.compare_spec a b)
         | H : context [Pos.compare ?a ?b] |- _ =>
             destruct (Pos.compare_spec a b)
         | |- context [Pos.compare ?a ?b] =>
             destruct (Pos.compare_spec a b)
         end.

Lemma SFltb_above (m1 : positive) (e1 : Z) (m2 : positive) (e2 : Z)
      (y : spec_float) :
  lexLe m1 e1 m2 e2 ->
  SFltb (S754_finite false m2 e2) y = true ->
  SFltb y (S754_finite false m1 e1) = false.
Proof.
  intros [Hl | [Hl Hm]] H; destruct y as [s | s | | s m e];
    try destruct s; unfold SFltb, SFcompare in *;
    change (PosDef.Pos.compare_cont Eq) with Pos.compare in *;
    try discriminate; try reflexivity;
    compare_cases; try discriminate; try reflexivity; lia.
Qed.

Lemma SFltb_lower (m1 : positive) (e1 : Z) (m2 : positive) (e2 : Z)
      (y : spec_float) :
  lexLe m1 e1 m2 e2 ->
  SFltb (S754_finite false m2 e2) y = true ->
  SFltb (S754_finite false m1 e1) y = true.
Proof.
  intros [Hl | [Hl Hm]] H; destruct y as [s | s | | s m e];
    try destruct s; unfold SFltb, SFcompare in *;
    change (PosDef.Pos.compare_cont Eq) with Pos.compare in *;
    try discriminate; try reflexivity;
    compare_cases; try discriminate; try reflexivity; lia.
Qed.

Lemma Math_max_cases (c y : float) :
  PrimFloat.is_nan c = false -> PrimFloat.get_sign c = false ->
  Math_max c y = PrimFloat.nan
  \/ (Math_max c y = y /\ PrimFloat.ltb c y = true)
  \/ Math_max c y = c.
Proof.
  intros Hn Hs. unfold Math_max. rewrite Hn, Hs. cbn [orb].
  destruct (PrimFloat.is_nan y); [now left |].
  destruct (PrimFloat.ltb c y); [right; left; now split |].
  destruct (PrimFloat.ltb y c); right; right; reflexivity.
Qed.

Lemma Math_min_cases (c y : float) :
  PrimFloat.is_nan c = false -> PrimFloat.get_sign c = false ->
  Math_min c y = PrimFloat.nan
  \/ Math_min c y = c
  \/ (Math_min c y = y /\ PrimFloat.ltb c y = false).
Proof.
  intros Hn Hs. unfold Math_min. rewrite Hn, Hs. cbn [orb].
  destruct (PrimFloat.is_nan y); [now left |].
  destruct (PrimFloat.ltb c y) eqn:E; [right; left; reflexivity |].
  destruct (PrimFloat.ltb y c); right; right; now split.
Qed.

(** [Math.max(lo, Math.min(hi, x))] with [10 <= lo <= hi <= 300] is
    neither below 10 nor above 300, whatever [x] is. *)
Lemma clamped_between (lo hi x : float) (ml mh : positive) (el eh : Z) :
  Prim2SF lo = S754_finite false ml el ->
  Prim2SF hi = S754_finite false mh eh ->
  PrimFloat.is_nan lo = false -> PrimFloat.get_sign lo = false ->
  PrimFloat.is_nan hi = false -> PrimFloat.get_sign hi = false ->
  lexLe 5629499534213120 (-49) ml el ->
  lexLe mh eh 5277655813324800 (-44) ->
  PrimFloat.ltb lo 10 = false -> PrimFloat.ltb 300 lo = false ->
  PrimFloat.ltb 300 hi = false ->
  PrimFloat.ltb (Math_max lo (Math_min hi x)) 10 = false
  /\ PrimFloat.ltb 300 (Math_max lo (Math_min hi x)) = false.
Proof.
  intros Elo Ehi Hnl Hsl Hnh Hsh Hlow Hhigh Hlo10 Hlo300 Hhi300.
  destruct (Math_max_cases lo (Math_min hi x) Hnl Hsl)
    as [-> | [[-> Hlt] | ->]].
  - split; reflexivity.
  - split.
    + rewrite FloatAxioms.ltb_spec in Hlt |- *. rewrite Elo in Hlt.
      change (Prim2SF 10) with (S754_finite false 5629499534213120 (-49)).
      exact (SFltb_above _ _ _ _ _ Hlow Hlt).
    + destruct (Math_min_cases hi x Hnh Hsh) as [-> | [-> | [-> Hge]]].
      * reflexivity.
      * exact Hhi300.
      * destruct (PrimFloat.ltb 300 x) eqn:E; [| reflexivity].
        rewrite FloatAxioms.ltb_spec in E, Hge. rewrite Ehi in Hge.
        change (Prim2SF 300)
          with (S754_finite false 5277655813324800 (-44)) in E.
        rewrite (SFltb_lower _ _ _ _ _ Hhigh E) in Hge. discriminate Hge.
  - split; assumption.
Qed.

(** X19.  The estimated duration is never below 10 and never above 300
    seconds, whatever the MIME type and the size (also a size that is
    not a number): the early return for a video shorter than 10 seconds
    (line 398) is never taken, and the deduction for more than 300
    seconds (line 439) is never made. *)
Theorem estimatedDuration_bounds (mimeType : string) (fileSize : float) :
  PrimFloat.ltb (estimatedDuration mimeType fileSize) 10 = false
  /\ PrimFloat.ltb 300 (estimatedDuration mimeType fileSize) = false.
Proof.
  unfold estimatedDuration. cbv zeta.
  destruct (JsString.includes mimeType "webm").
  - destruct (PrimFloat.ltb _ fileSize).
    + apply (clamped_between 30 300 _ 8444249301319680 5277655813324800
                             (-48) (-44)); try reflexivity.
      * left. lia.
      * right. split; [reflexivity | apply Pos.le_refl].
    + apply (clamped_between 10 180 _ 5629499534213120 6333186975989760
                             (-49) (-45)); try reflexivity.
      * right. split; [reflexivity | apply Pos.le_refl].
      * left. lia.
  - destruct (JsString.includes mimeType "mp4").
    + apply (clamped_between 15 300 _ 8444249301319680 5277655813324800
                             (-49) (-44)); try reflexivity.
      * right. split; [reflexivity | lia].
      * right. split; [reflexivity | apply Pos.le_refl].
    + split; reflexivity.
Qed.

Example estimatedDuration_samples :
  estimatedDuration "video/webm" 524288 = 10%float
  /\ estimatedDuration "video/webm" 8000000 = (8000000 / 61440)%float
  /\ estimatedDuration "video/mp4" 1e9 = 300%float
  /\ estimatedDuration "video/quicktime" 1e9 = 30%float.
Proof. repeat split. Qed.

End Duration.

(** ** The analysis does not depend on letter case *)

Section LetterCase.

Import JsString Regex.

Ltac all_chars c := destruct c as [[] [] [] [] [] [] [] []]; reflexivity.

Lemma lowerChar_idem (c : ascii) : lowerChar (lowerChar c) = lowerChar c.
Proof. all_chars c. Qed.

Lemma lowerChar_space (c : ascii) :
  Ascii.eqb (lowerChar c) " " = Ascii.eqb c " ".
Proof. all_chars c. Qed.

Lemma lowerChar_wordChar (c : ascii) : wordChar (lowerChar c) = wordChar c.
Proof. all_chars c. Qed.

Lemma lowerChar_digit (c : ascii) : digit (lowerChar c) = digit c.
Proof. all_chars c. Qed.

Lemma lowerChar_class_space (c : ascii) : space (lowerChar c) = space c.
Proof. all_chars c. Qed.

(** Lower case either keeps the canonical form or moves between two
    characters outside ASCII. *)
Lemma lowerChar_canonical (c : ascii) :
  Ascii.eqb (canonicalize (lowerChar c)) (canonicalize c)
  || (negb (asciiChar (canonicalize (lowerChar c)))
      && negb (asciiChar (canonicalize c))) = true.
Proof. all_chars c. Qed.

Lemma canonicalize_ascii (p : ascii) :
  asciiChar p = true -> asciiChar (canonicalize p) = true.
Proof. destruct p as [[] [] [] [] [] [] [] []]; trivial. Qed.

Lemma sameChar_lower (p c : ascii) :
  asciiChar p = true -> sameChar p (lowerChar c) = sameChar p c.
Proof.
  intro Hp. apply canonicalize_ascii in Hp. unfold sameChar.
  pose proof (lowerChar_canonical c) as H.
  apply orb_true_iff in H. destruct H as [H | H].
  - apply Ascii.eqb_eq in H. now rewrite H.
  - apply andb_true_iff in H. destruct H as [H1 H2].
    destruct (Ascii.eqb_spec (canonicalize p) (canonicalize (lowerChar c)))
      as [E | _].
    + rewrite <- E, Hp in H1. discriminate H1.
    + destruct (Ascii.eqb_spec (canonicalize p) (canonicalize c))
        as [E | _]; [| reflexivity].
      rewrite <- E, Hp in H2. discriminate H2.
Qed.

(** Two continuations that agree up to lower case. *)
Definition Agree (k' k : Cont) : Prop :=
  forall p s n, k' (lowerPrev p) (toLowerCase s) n = k p s n.

Lemma matchLit_lower (lit : string) :
  asciiString lit = true ->
  forall prev s n k' k, Agree k' k ->
    matchLit lit (lowerPrev prev) (toLowerCase s) n k'
    = matchLit lit prev s n k.
Proof.
  induction lit as [| p lit IH]; intros Hl prev s n k' k Hk.
  - apply Hk.
  - cbn [asciiString] in Hl. apply andb_true_iff in Hl.
    destruct Hl as [Hp Hl].
    destruct s as [| c rest]; [reflexivity |].
    cbn [matchLit toLowerCase]. rewrite (sameChar_lower _ _ Hp).
    destruct (sameChar p c); [| reflexivity].
    exact (IH Hl (Some c) rest (S n) k' k Hk).
Qed.

Lemma matchStar_lower (cls : ascii -> bool) :
  (forall c, cls (lowerChar c) = cls c) ->
  forall s prev n k' k, Agree k' k ->
    matchStar cls (lowerPrev prev) (toLowerCase s) n k'
    = matchStar cls prev s n k.
Proof.
  intros Hc s. induction s as [| c rest IH]; intros prev n k' k Hk.
  - apply (Hk prev "" n).
  - cbn [matchStar toLowerCase]. rewrite Hc.
    pose proof (Hk prev (String c rest) n) as Hhere.
    cbn [toLowerCase] in Hhere.
    destruct (cls c); [| exact Hhere].
    change (Some (lowerChar c)) with (lowerPrev (Some c)).
    rewrite (IH (Some c) (S n) k' k Hk), Hhere. reflexivity.
Qed.

Lemma run_lower (r : regex) :
  CaseBlind r ->
  forall prev s n k' k, Agree k' k ->
    run r (lowerPrev prev) (toLowerCase s) n k' = run r prev s n k.
Proof.
  induction r as [lit | | cls | cls | r1 IH1 r2 IH2 | r1 IH1 r2 IH2 |];
    intros Hr prev s n k' k Hk; cbn [run].
  - now apply matchLit_lower.
  - assert (E1 : isWord (lowerPrev prev) = isWord prev)
      by (destruct prev; [apply lowerChar_wordChar | reflexivity]).
    assert (E2 : isWord (next (toLowerCase s)) = isWord (next s))
      by (destruct s; [reflexivity | apply lowerChar_wordChar]).
    rewrite E1, E2, (Hk prev s n). reflexivity.
  - unfold matchPlus. destruct s as [| c rest]; [reflexivity |].
    cbn [toLowerCase]. rewrite (Hr c).
    destruct (cls c); [| reflexivity].
    exact (matchStar_lower cls Hr rest (Some c) (S n) k' k Hk).
  - now apply matchStar_lower.
  - destruct Hr as [H1 H2]. apply (IH1 H1).
    intros p s' n'. now apply (IH2 H2).
  - destruct Hr as [H1 H2].
    rewrite (IH1 H1 prev s n k' k Hk), (IH2 H2 prev s n k' k Hk).
    reflexivity.
  - reflexivity.
Qed.

Lemma scan_lower (r : regex) :
  CaseBlind r ->
  forall s prev skip,
    scan r (lowerPrev prev) (toLowerCase s) skip = scan r prev s skip.
Proof.
  intros Hr s. induction s as [| c rest IH]; intros prev skip.
  - destruct skip; [| reflexivity]. cbn [scan toLowerCase]. unfold matchHere.
    change EmptyString with (toLowerCase EmptyString) at 1.
    rewrite (run_lower r Hr prev "" 0 (fun _ _ n => Some n)
                       (fun _ _ n => Some n));
      [reflexivity | intros p s n; reflexivity].
  - destruct skip as [| skip'].
    + cbn [scan toLowerCase]. unfold matchHere.
      change (String (lowerChar c) (toLowerCase rest))
        with (toLowerCase (String c rest)).
      rewrite (run_lower r Hr prev (String c rest) 0 (fun _ _ n => Some n)
                         (fun _ _ n => Some n));
        [| intros p s n; reflexivity].
      destruct (run r prev (String c rest) 0 (fun _ _ n => Some n));
        [f_equal |]; exact (IH (Some c) _).
    + cbn [scan toLowerCase]. exact (IH (Some c) skip').
Qed.

Lemma countMatches_lower (r : regex) (text : string) :
  CaseBlind r -> countMatches r (toLowerCase text) = countMatches r text.
Proof.
  intro Hr. unfold countMatches. f_equal.
  exact (scan_lower r Hr text None 0).
Qed.

Lemma CaseBlind_oneOf (ws : list string) :
  forallb asciiString ws = true -> CaseBlind (oneOf ws).
Proof.
  induction ws as [| w ws IH]; intro H; [exact I |].
  cbn [forallb] in H. apply andb_true_iff in H. destruct H as [Hw Hws].
  cbn. split; [exact Hw | now apply IH].
Qed.

Lemma CaseBlind_wholeWord (ws : list string) :
  forallb asciiString ws = true -> CaseBlind (wholeWord ws).
Proof.
  intro H. unfold wholeWord. cbn [CaseBlind].
  split; [exact I |]. split; [now apply CaseBlind_oneOf | exact I].
Qed.

Lemma CaseBlind_patterns :
  CaseBlind Patterns.technicalTerms /\ CaseBlind Patterns.confidenceWords
  /\ CaseBlind Patterns.fillerWords /\ CaseBlind Patterns.specificMetrics
  /\ CaseBlind Patterns.questionWords
  /\ CaseBlind Patterns.technicalTermsShort
  /\ CaseBlind Patterns.confidenceWordsShort
  /\ CaseBlind Patterns.fillerWordsShort.
Proof.
  repeat split;
    try (apply CaseBlind_wholeWord; reflexivity);
    try exact I; try reflexivity;
    try exact lowerChar_digit; try exact lowerChar_class_space;
    try (apply CaseBlind_oneOf; reflexivity).
Qed.

Lemma toLowerCase_idem (s : string) :
  toLowerCase (toLowerCase s) = toLowerCase s.
Proof.
  induction s as [| c s IH]; [reflexivity |].
  cbn [toLowerCase]. now rewrite lowerChar_idem, IH.
Qed.

Lemma spaceCount_lower (s : string) :
  spaceCount (toLowerCase s) = spaceCount s.
Proof.
  induction s as [| c s IH]; [reflexivity |].
  cbn [toLowerCase spaceCount]. now rewrite lowerChar_space, IH.
Qed.

Lemma split_length_lower (s : string) :
  List.length (split " " (toLowerCase s)) = List.length (split " " s).
Proof. now rewrite !split_space_length, spaceCount_lower. Qed.

(** X20.  The analysis reads the transcript only up to letter case:
    [analyzeRealSpeech] and [analyzeRealTranscription] return the same
    result, rating, mistakes, tips and summary, on a transcript and on
    the same transcript in lower case. *)
Theorem analysis_ignores_case (t : Transcript.t) (field : string) :
  AnalyzeJs.analyzeRealSpeech (lowerTranscript t) field
  = AnalyzeJs.analyzeRealSpeech t field
  /\ ServerJs.analyzeRealTranscription (lowerTranscript t) field
     = ServerJs.analyzeRealTranscription t field.
Proof.
  destruct CaseBlind_patterns as (H1 & H2 & H3 & H4 & H5 & _).
  unfold AnalyzeJs.analyzeRealSpeech, ServerJs.analyzeRealTranscription,
    lowerTranscript.
  cbn [Transcript.text Transcript.segments]. rewrite !orEmpty_id.
  rewrite !split_length_lower.
  rewrite !(countMatches_lower _ _ H1), !(countMatches_lower _ _ H2),
    !(countMatches_lower _ _ H3), !(countMatches_lower _ _ H4),
    !(countMatches_lower _ _ H5).
  unfold AnalyzeJs.computeRating, ServerJs.computeRating.
  rewrite !toLowerCase_idem. split; reflexivity.
Qed.

End LetterCase.

(** ** A start time below zero *)

Section NegativeStart.




Example negative_start_sample : formatStart (- (5)) = "-1:-5".
Proof. reflexivity. Qed.

End NegativeStart.

(** ** The two word counts *)

Section TwoCounts.

Lemma wordCountOf_le (text : string) :
  (ServerJs.wordCountOf text <= wordCount text)%Z.
Proof.
  unfold ServerJs.wordCountOf, wordCount.
  apply Nat2Z.inj_le, filter_length_le.
Qed.

(** X22.  The word count of [analyzeTranscription] discards empty
    tokens and so never exceeds that of [analyzeRealSpeech]: whenever
    the latter finds fewer than 5 words and reports no speech, the
    former rates 0 as well. *)
Theorem no_speech_in_all_copies (t : Transcript.t) (field : string) :
  (wordCount (Transcript.text t) < 5)%Z ->
  (ServerJs.wordCountOf (Transcript.text t)
   <= wordCount (Transcript.text t))%Z
  /\ AnalyzeJs.analyzeRealSpeech t field = Normal AnalyzeJs.noSpeech
  /\ rating (ServerJs.analyzeTranscription t field) = 0.
Proof.
  intro H. pose proof (wordCountOf_le (Transcript.text t)) as Hle.
  split; [exact Hle |]. split; [now apply analyzeRealSpeech_noSpeech |].
  unfold ServerJs.analyzeTranscription. rewrite orEmpty_id.
  destruct (Z.ltb_spec (ServerJs.wordCountOf (Transcript.text t)) 5);
    [reflexivity | lia].
Qed.

Lemma no_speech_in_all_copies_witness :
  (wordCount (Transcript.text (Transcript.mk "yes  no " None 0)) < 5)%Z
  /\ (ServerJs.wordCountOf (Transcript.text (Transcript.mk "yes  no " None 0))
      <= wordCount (Transcript.text (Transcript.mk "yes  no " None 0)))%Z
  /\ AnalyzeJs.analyzeRealSpeech (Transcript.mk "yes  no " None 0) "java"
     = Normal AnalyzeJs.noSpeech
  /\ rating (ServerJs.analyzeTranscription (Transcript.mk "yes  no " None 0)
                                           "java") = 0.
Proof.
  split; [reflexivity |].
  apply (no_speech_in_all_copies (Transcript.mk "yes  no " None 0) "java").
  reflexivity.
Defined.

(** The converse fails: five spaces are six words for
    [analyzeRealSpeech], which rates them 2, and none for
    [analyzeTranscription]. *)
Example five_spaces :
  wordCount "     " = 6%Z /\ ServerJs.wordCountOf "     " = 0%Z
  /\ AnalyzeJs.analyzeRealSpeech (Transcript.mk "     " None 0) "java"
     = Normal (AnalyzeJs.tooBrief 6)
  /\ rating (ServerJs.analyzeTranscription (Transcript.mk "     " None 0)
                                           "java") = 0.
Proof. repeat split. Qed.

End TwoCounts.
